(** * UTBoost experiment: localization helpers, response parsing and test injection

    A shallow embedding of the Python sources of the UTBoost experiment
    (context_script, codebase_analyzer, utboost_test_generator,
    swe_bench_harness) together with the properties stated about them.

    Conventions of the embedding:
    - a Python [str] is a [string]; its characters are 8-bit [ascii] values and
      the character classes below are the ones Python uses on the ASCII range
      (code points below 128), where all markers and patterns of the sources
      live;
    - a raised exception is a value of [exn], a call that may raise returns a
      [result];
    - code that touches the file system takes the file system as an argument
      and, when it writes, returns the new one. *)

From stdpp Require Import gmap strings list sorting.
From Stdlib Require Import Ascii ZArith Lia DecimalString.

Local Open Scope Z_scope.
Local Open Scope stdpp_scope.

(** ** Python values shared by all modules *)

Inductive exn : Type :=
  | ValueError (msg : string)
  | KeyError (key : string)
  | FileNotFoundError (msg : string)
  | PermissionError (msg : string)
  | IsADirectoryError (msg : string)
  | NotADirectoryError (msg : string)
  | RecursionError
  | ServiceError (msg : string)
  | NameError (msg : string)
  | Exception (msg : string).

Inductive result (A : Type) : Type :=
  | Ok (a : A)
  | Raise (e : exn).
Arguments Ok {A} a.
Arguments Raise {A} e.

(** Sequencing of calls that may raise: [x ← r; k] runs [k] on the value of
    [r] and propagates the exception of [r]. *)
#[global] Instance result_ret : MRet result := λ A a, Ok a.
#[global] Instance result_bind : MBind result := λ A B k r,
  match r with
  | Ok a => k a
  | Raise e => Raise e
  end.

Definition is_ok {A : Type} (r : result A) : bool :=
  match r with Ok _ => true | Raise _ => false end.

(** Evaluating a name that is neither local nor built in: it must be bound
    in the namespace of the module, given as the list of its names. *)
Definition load_global (module_names : list string) (name : string)
    : result unit :=
  if bool_decide (name ∈ module_names) then Ok ()
  else Raise (NameError ("name '" +:+ name +:+ "' is not defined")).

(** ** Python string primitives *)

Module Py.

Definition LF : ascii := "010"%char.
Definition NL : string := String LF "".

Definition code (c : ascii) : N := N_of_ascii c.

(** [str.isspace] on one character (ASCII range): tab, line feed, vertical
    tab, form feed, carriage return, the four separators 0x1c-0x1f, space. *)
Definition isspace (c : ascii) : bool :=
  let n := code c in
  ((9 <=? n) && (n <=? 13) || (28 <=? n) && (n <=? 32))%N.

(** The class [\w] of [re] (ASCII range): letters, digits, underscore. *)
Definition isword (c : ascii) : bool :=
  let n := code c in
  ((48 <=? n) && (n <=? 57) || (65 <=? n) && (n <=? 90)
   || (97 <=? n) && (n <=? 122) || (n =? 95))%N.

Definition ascii_eqb (a b : ascii) : bool := bool_decide (a = b).

Fixpoint mem (c : ascii) (chars : string) : bool :=
  match chars with
  | "" => false
  | String d r => ascii_eqb c d || mem c r
  end.

Definition is_empty (s : string) : bool :=
  match s with "" => true | _ => false end.

(** [s.startswith(p)] *)
Fixpoint startswith (p s : string) : bool :=
  match p, s with
  | "", _ => true
  | String a p', String b s' => ascii_eqb a b && startswith p' s'
  | String _ _, "" => false
  end.

(** [needle in hay] *)
Fixpoint contains (needle hay : string) : bool :=
  startswith needle hay ||
  match hay with
  | "" => false
  | String _ h => contains needle h
  end.

(** [s.lstrip(chars)], [s.rstrip(chars)], [s.strip(chars)] for a predicate
    on characters. *)
Fixpoint lstrip_by (p : ascii → bool) (s : string) : string :=
  match s with
  | "" => ""
  | String c r => if p c then lstrip_by p r else s
  end.

Fixpoint rstrip_by (p : ascii → bool) (s : string) : string :=
  match s with
  | "" => ""
  | String c r =>
      let r' := rstrip_by p r in
      if p c && is_empty r' then "" else String c r'
  end.

Definition strip_by (p : ascii → bool) (s : string) : string :=
  rstrip_by p (lstrip_by p s).

(** [s.strip()] *)
Definition strip (s : string) : string := strip_by isspace s.

(** [s.strip(chars)] *)
Definition strip_chars (chars s : string) : string :=
  strip_by (fun c => mem c chars) s.

(** [s.split(sep)] for a one-character separator: never empty. *)
Fixpoint split (sep : ascii) (s : string) : list string :=
  match s with
  | "" => [""]
  | String c r =>
      if ascii_eqb c sep then "" :: split sep r
      else match split sep r with
           | [] => [String c ""]
           | w :: ws => String c w :: ws
           end
  end.

(** The lines a text file object yields when iterated, and the list
    [f.readlines()] returns: each line keeps its line feed, a last line
    without one is kept too, an empty text has no line. The text is the one
    the text layer delivers. *)
Fixpoint readlines (s : string) : list string :=
  match s with
  | "" => []
  | String c r =>
      if ascii_eqb c LF then NL :: readlines r
      else match readlines r with
           | [] => [String c ""]
           | l :: ls => String c l :: ls
           end
  end.

(** [''.join(xs)] and [sep.join(xs)] *)
Fixpoint concat (xs : list string) : string :=
  match xs with
  | [] => ""
  | x :: r => x +:+ concat r
  end.

Fixpoint join (sep : string) (xs : list string) : string :=
  match xs with
  | [] => ""
  | [x] => x
  | x :: r => x +:+ sep +:+ join sep r
  end.

(** [s * n] *)
Fixpoint repeat (s : string) (n : nat) : string :=
  match n with
  | O => ""
  | S k => s +:+ repeat s k
  end.

End Py.

(** ** The file system *)

Module Fs.

(** A path names a directory or a regular file with its text and the two
    permissions the sources depend on. Paths are the keys as the sources
    build them. *)
Inductive node : Type :=
  | Dir (writable : bool)
  | File (content : string) (readable writable : bool).

Abbreviation fs := (gmap string node).

Definition exists_ (σ : fs) (p : string) : bool :=
  match σ !! p with Some _ => true | None => false end.

Definition is_file (σ : fs) (p : string) : bool :=
  match σ !! p with Some (File _ _ _) => true | _ => false end.

(** The text before the last slash of a path. *)
Fixpoint before_last_slash (p : string) : option string :=
  match p with
  | "" => None
  | String c r =>
      match before_last_slash r with
      | Some d => Some (String c d)
      | None => if Py.ascii_eqb c "/"%char then Some "" else None
      end
  end.

(** [Path(p).parent] *)
Definition parent (p : string) : string :=
  match before_last_slash p with
  | None => "."
  | Some "" => "/"
  | Some d => d
  end.

(** [open(p, "r")] followed by [f.read()], and [open(p)] followed by
    [f.readlines()]. *)
Definition read (σ : fs) (p : string) : result string :=
  match σ !! p with
  | Some (File c true _) => Ok c
  | Some (File _ false _) => Raise (PermissionError p)
  | Some (Dir _) => Raise (IsADirectoryError p)
  | None => Raise (FileNotFoundError p)
  end.

(** [open(p, "a")]: an existing regular file must be writable, a missing one
    is created empty in its parent directory. *)
Definition open_append (σ : fs) (p : string) : result fs :=
  match σ !! p with
  | Some (File _ _ true) => Ok σ
  | Some (File _ _ false) => Raise (PermissionError p)
  | Some (Dir _) => Raise (IsADirectoryError p)
  | None =>
      match σ !! parent p with
      | Some (Dir true) => Ok (<[p := File "" true true]> σ)
      | Some (Dir false) => Raise (PermissionError p)
      | Some (File _ _ _) => Raise (NotADirectoryError p)
      | None => Raise (FileNotFoundError p)
      end
  end.

Definition append_text (data : string) (n : node) : node :=
  match n with
  | File c r w => File (c +:+ data) r w
  | Dir w => Dir w
  end.

(** [f.write(data)] on a file opened for append. *)
Definition write (σ : fs) (p : string) (data : string) : fs :=
  alter (append_text data) p σ.

Definition content (σ : fs) (p : string) : option string :=
  match σ !! p with Some (File c _ _) => Some c | _ => None end.

End Fs.

(** ** swe_bench_harness.py: injection of generated tests *)

Module Harness.
Import Fs.

(** The names the module binds: its two functions. The only import of the
    file, [from pathlib import Path], stands inside [process_all_tasks] and
    binds a local name of that function. *)
Definition module_names : list string :=
  ["inject_tests"; "process_all_tasks"].

Definition marker : string := "# UTBoost Generated Tests".

(** The text of the first [f.write]. *)
Definition header : string := Py.NL +:+ Py.NL +:+ marker +:+ Py.NL.

(** The current [inject_tests] of swe_bench_harness.py. Its first statement
    calls [Path]: the name is evaluated before the argument. *)
Definition inject_tests (task_instance : gmap string string)
    (utboost_tests : string) (σ : fs) : result string * fs :=
  match load_global module_names "Path" with
  | Raise e => (Raise e, σ)
  | Ok _ =>
      match task_instance !! "test_file" with
      | None => (Raise (KeyError "test_file"), σ)
      | Some test_file =>
          match open_append σ test_file with
          | Raise e => (Raise e, σ)
          | Ok σ1 =>
              let σ2 := write σ1 test_file header in
              let σ3 := write σ2 test_file utboost_tests in
              (Ok test_file, σ3)
          end
      end
  end.

End Harness.

(** The snapshot swe_bench_harness_20250419213149.py of the same function,
    which validates its arguments and looks for the marker first. *)

Module Harness_20250419213149.
Import Fs.

(** The names the module binds: the file holds the one function and no
    import. *)
Definition module_names : list string := ["inject_tests"].

Definition marker : string := "# UTBoost Generated Tests".

Definition separator : string := Py.NL +:+ Py.repeat "#" 80 +:+ Py.NL.

Definition formatted_tests (utboost_tests : string) : string :=
  separator +:+ marker +:+ separator +:+ Py.strip utboost_tests +:+ Py.NL.

(** [str(e)] for the exceptions that carry a message. *)
Definition exn_str (e : exn) : string :=
  match e with
  | ValueError m | KeyError m | FileNotFoundError m | PermissionError m
  | IsADirectoryError m | NotADirectoryError m | ServiceError m
  | NameError m | Exception m => m
  | RecursionError => "maximum recursion depth exceeded"
  end.

(** The two [except] clauses that close the [try] block. *)
Definition handler (test_file : string) (e : exn) : exn :=
  match e with
  | PermissionError _ =>
      PermissionError ("Permission denied when writing to " +:+ test_file)
  | _ => Exception ("Error injecting tests: " +:+ exn_str e)
  end.

(** [inject_tests]: the two checks of the arguments, then the call of [Path]
    on line 24, which stands before the [try] block. *)
Definition inject_tests (task_instance : gmap string string)
    (utboost_tests : string) (σ : fs) : result string * fs :=
  if Py.is_empty utboost_tests then
    (Raise (ValueError "utboost_tests must be a non-empty string"), σ)
  else if bool_decide (task_instance = ∅)
          || bool_decide (task_instance !! "test_file" = None) then
    (Raise (ValueError "task_instance must contain 'test_file' key"), σ)
  else
    match load_global module_names "Path" with
    | Raise e => (Raise e, σ)
    | Ok _ =>
        match task_instance !! "test_file" with
        | None => (Raise (KeyError "test_file"), σ)
        | Some test_file =>
            if negb (exists_ σ test_file) then
              (Raise (FileNotFoundError
                        ("Test file not found: " +:+ test_file)), σ)
            else if negb (is_file σ test_file) then
              (Raise (ValueError ("Path is not a file: " +:+ test_file)), σ)
            else
              match read σ test_file with
              | Raise e => (Raise (handler test_file e), σ)
              | Ok existing_content =>
                  if Py.contains marker existing_content then
                    (Ok test_file, σ)
                  else
                    match open_append σ test_file with
                    | Raise e => (Raise (handler test_file e), σ)
                    | Ok σ1 =>
                        (Ok test_file,
                         write σ1 test_file (formatted_tests utboost_tests))
                    end
              end
        end
    end.

End Harness_20250419213149.

(** ** codebase_analyzer.py (snapshot 20250415143353) *)

Module CodebaseAnalyzer.

(** *** The three patterns of the compression loop

    [re.match] anchors at the start of the line. In [kw\s+\w+.*?:] the
    blank run and the word run are taken whole (giving one back leaves a
    character the next item refuses), and the lazy [.*?] stops at the first
    colon; [.] does not cross a line feed. *)

Fixpoint strip_prefix (p s : string) : option string :=
  match p, s with
  | "", _ => Some s
  | String a p', String b s' =>
      if Py.ascii_eqb a b then strip_prefix p' s' else None
  | String _ _, "" => None
  end.

Fixpoint span (p : ascii → bool) (s : string) : string * string :=
  match s with
  | "" => ("", "")
  | String c r =>
      if p c then let '(a, b) := span p r in (String c a, b)
      else ("", s)
  end.

(** The shortest [.*?:] at the head of [s]: the text up to its first colon,
    the colon included, when no line feed comes before. *)
Fixpoint upto_colon (s : string) : option string :=
  match s with
  | "" => None
  | String c r =>
      if Py.ascii_eqb c ":"%char then Some (String c "")
      else if Py.ascii_eqb c Py.LF then None
      else String c <$> upto_colon r
  end.

(** Group 1 of [^(kw\s+\w+.*?:)] on [line]. *)
Definition header_match (kw line : string) : option string :=
  match strip_prefix kw line with
  | None => None
  | Some r0 =>
      let '(blanks, r1) := span Py.isspace r0 in
      let '(name, r2) := span Py.isword r1 in
      if Py.is_empty blanks || Py.is_empty name then None
      else (fun tail => kw +:+ blanks +:+ name +:+ tail) <$> upto_colon r2
  end.

Definition class_match (line : string) : option string :=
  header_match "class" line.

Definition func_match (line : string) : option string :=
  header_match "def" line.

(** [re.match(r'^@\w+', line)] as a truth value. *)
Definition decorator_match (line : string) : bool :=
  match line with
  | String a (String b _) => Py.ascii_eqb a "@"%char && Py.isword b
  | _ => false
  end.

(** *** Code compression: the loop body over the lines of one file *)

Record scan : Type := Scan {
  compressed : list string;
  in_class : bool;
  in_function : bool
}.

Definition scan_init : scan := Scan [] false false.

Definition scan_line (st : scan) (line : string) : scan :=
  if decorator_match line then
    Scan (compressed st ++ [Py.strip line]) (in_class st) (in_function st)
  else
    match class_match line with
    | Some g => Scan (compressed st ++ [g]) true (in_function st)
    | None =>
        match func_match line with
        | Some g => Scan (compressed st ++ [g]) (in_class st) true
        | None =>
            if in_class st && Py.is_empty (Py.strip line) then
              Scan (compressed st) false (in_function st)
            else if in_function st && Py.is_empty (Py.strip line) then
              Scan (compressed st) (in_class st) false
            else st
        end
    end.

Definition scan_lines (lines : list string) : scan :=
  foldl scan_line scan_init lines.

(** The list [compressed] built from the text of one file. *)
Definition compress (text : string) : list string :=
  compressed (scan_lines (Py.readlines text)).

(** [Path(repo_path) / file_path] *)
Definition joinpath (a b : string) : string :=
  if Py.startswith "/" b then b else a +:+ "/" +:+ b.

(** [d[k] = v] on a dict kept in insertion order. *)
Fixpoint dict_set (d : list (string * string)) (k v : string)
    : list (string * string) :=
  match d with
  | [] => [(k, v)]
  | (k', v') :: r =>
      if bool_decide (k' = k) then (k, v) :: r else (k', v') :: dict_set r k v
  end.

(** Step 1 of [function_class_localization]: the dict [compressed_files]. *)
Fixpoint compressed_files (σ : Fs.fs) (repo_path : string)
    (top_files : list string) (acc : list (string * string))
    : result (list (string * string)) :=
  match top_files with
  | [] => Ok acc
  | file_path :: rest =>
      let full_path := joinpath repo_path file_path in
      if negb (Fs.exists_ σ full_path) then
        compressed_files σ repo_path rest acc
      else
        text ← Fs.read σ full_path;
        compressed_files σ repo_path rest
          (dict_set acc file_path (Py.join Py.NL (compress text)))
  end.

(** *** The repository tree of [file_level_localization] *)

(** What [build_tree] sees of the operating system: [os.listdir], whose
    order is the file system's own, and [os.path.isdir]. *)
Record os_view : Type := OsView {
  listdir : string → result (list string);
  isdir : string → bool
}.

Fixpoint endswith_slash (s : string) : bool :=
  match s with
  | "" => false
  | String c "" => Py.ascii_eqb c "/"%char
  | String _ r => endswith_slash r
  end.

(** [os.path.join(a, b)] *)
Definition path_join (a b : string) : string :=
  if Py.startswith "/" b then b
  else if Py.is_empty a || endswith_slash a then a +:+ b
  else a +:+ "/" +:+ b.

(** [sorted(names)]: strings compare character by character. *)
Definition sorted (names : list string) : list string :=
  merge_sort String.le names.

Fixpoint for_each {S A : Type} (body : S → A → result S) (xs : list A)
    (s : S) : result S :=
  match xs with
  | [] => Ok s
  | x :: r => s' ← body s x; for_each body r s'
  end.

Definition bar : string := "│   ".
Definition tee : string := "├── ".

(** One round of the [for item in items] loop; [rec] is the recursive call. *)
Definition render_item (v : os_view) (rec : string → nat → result string)
    (dir_path : string) (indent : nat) (tree_str item : string)
    : result string :=
  let full_path := path_join dir_path item in
  if isdir v full_path then
    let tree_str1 :=
      tree_str +:+ (Py.repeat bar indent +:+ (tee +:+ item +:+ "/" +:+ Py.NL)) in
    sub ← rec full_path (S indent);
    Ok (tree_str1 +:+ sub)
  else
    Ok (tree_str +:+ (Py.repeat bar indent +:+ (tee +:+ item +:+ Py.NL))).

(** [build_tree(dir_path, indent)]; [depth] is the number of nested calls
    the interpreter still allows, beyond which it raises RecursionError. *)
Fixpoint build_tree (v : os_view) (depth : nat) (dir_path : string)
    (indent : nat) : result string :=
  match depth with
  | O => Raise RecursionError
  | S depth' =>
      items ← listdir v dir_path;
      for_each (render_item v (build_tree v depth') dir_path indent)
        (sorted items) ""
  end.

(** *** The numbered code of [line_level_localization] *)

(** [str(n)] for a number that is not negative. *)
Definition str_of_nat (n : nat) : string :=
  NilZero.string_of_uint (Nat.to_uint n).

(** [get_code_with_lines(file_path)] *)
Definition get_code_with_lines (σ : Fs.fs) (file_path : string)
    : result string :=
  text ← Fs.read σ file_path;
  Ok (Py.concat (imap (λ i line, str_of_nat (i + 1) +:+ ": " +:+ line)
                   (Py.readlines text))).

End CodebaseAnalyzer.

(** ** utboost_test_generator.py (snapshot 20250415141700) *)

Module TestGenerator.

(** [l[start:stop]]: a negative index counts from the end, both indices are
    brought into [0, len(l)]. *)
Definition slice_index (len i : Z) : Z :=
  if i <? 0 then Z.max 0 (i + len) else Z.min i len.

Definition py_slice {A : Type} (l : list A) (start stop : Z) : list A :=
  let len := Z.of_nat (length l) in
  let a := slice_index len start in
  let b := slice_index len stop in
  take (Z.to_nat (b - a)) (drop (Z.to_nat a) l).

Definition get_context_window (σ : Fs.fs) (file_path : string)
    (target_lines : Z * Z) (window_size : Z) : result string :=
  text ← Fs.read σ file_path;
  let lines := Py.readlines text in
  let start := Z.max 0 (fst target_lines - window_size) in
  let end_ := Z.min (Z.of_nat (length lines)) (snd target_lines + window_size) in
  Ok (Py.concat (py_slice lines start end_)).

(** *** Reading an issue from the evaluation directory *)

(** A value as [json.loads] returns it; a float is kept as it is written,
    a dict as its items. *)
#[local] Set Warnings "-register-all".
Inductive json : Type :=
  | JNull
  | JBool (b : bool)
  | JInt (n : Z)
  | JFloat (literal : string)
  | JStr (s : string)
  | JList (items : list json)
  | JDict (items : list (string * json)).
#[local] Set Warnings "+register-all".

(** What a call raises: one of the exceptions above, or the AttributeError
    of a [.get] on a value of the named type, which is not a dict. *)
Inductive raised : Type :=
  | Std (e : exn)
  | AttributeError (type_name : string).

Inductive outcome (A : Type) : Type :=
  | Returns (a : A)
  | Raises (e : raised).
Arguments Returns {A} a.
Arguments Raises {A} e.

Definition type_name (v : json) : string :=
  match v with
  | JNull => "NoneType"
  | JBool _ => "bool"
  | JInt _ => "int"
  | JFloat _ => "float"
  | JStr _ => "str"
  | JList _ => "list"
  | JDict _ => "dict"
  end.

(** [d.get(k)] on the items of a dict. *)
Fixpoint dict_get (d : list (string * json)) (k : string) : option json :=
  match d with
  | [] => None
  | (k', v) :: r => if bool_decide (k' = k) then Some v else dict_get r k
  end.

(** [data.get('instance_id') == instance_id] *)
Definition id_matches (d : list (string * json)) (instance_id : string) : bool :=
  match dict_get d "instance_id" with
  | Some (JStr s) => bool_decide (s = instance_id)
  | _ => false
  end.

(** The [for line in f] loop; [json_loads] is the parser of the json
    library, which raises a ValueError on a text that is not JSON. *)
Fixpoint find_instance (json_loads : string → result json)
    (lines : list string) (instance_id : string)
    : option (outcome (json * json)) :=
  match lines with
  | [] => None
  | line :: rest =>
      match json_loads line with
      | Raise e => Some (Raises (Std e))
      | Ok (JDict d) =>
          if id_matches d instance_id then
            Some (Returns (default (JStr "") (dict_get d "issue_description"),
                           default (JStr "") (dict_get d "model_patch")))
          else find_instance json_loads rest instance_id
      | Ok v => Some (Raises (AttributeError (type_name v)))
      end
  end.

Definition read_issue_from_eval_dir (json_loads : string → result json)
    (σ : Fs.fs) (eval_dir agent_name instance_id : string)
    : outcome (json * json) :=
  let json_file :=
    CodebaseAnalyzer.path_join (CodebaseAnalyzer.path_join eval_dir agent_name)
      "all_preds.json" in
  if negb (Fs.exists_ σ json_file) then
    Raises (Std (FileNotFoundError ("Could not find " +:+ json_file)))
  else
    match Fs.read σ json_file with
    | Raise e => Raises (Std e)
    | Ok text =>
        match find_instance json_loads (Py.readlines text) instance_id with
        | Some out => out
        | None =>
            Raises (Std (ValueError ("Could not find instance " +:+ instance_id
                                      +:+ " in " +:+ json_file)))
        end
    end.

End TestGenerator.

(** ** context_script.py (snapshot 20250417152827) *)

Module ContextGenerator.

(** One call of [client.chat.completions.create]. *)
Record request : Type := Request {
  req_model : string;
  req_prompt : string
}.

(** The generative service behind the client: it answers a request, or
    fails, as a function of the requests it has received so far. *)
Definition service : Type := list request → request → result string.

(** The calls of [CodebaseAnalyzer] that [process_task] makes. The analyzer
    of this snapshot works on a remote repository and is not part of the
    sources; its four entry points are taken as they are called. [dict_str]
    is the text an f-string gives for a dict. *)
Record analyzer : Type := Analyzer {
  derive_repo_info : gmap string string → result (gmap string string);
  file_level_localization :
    string → string → string → string → option string → result string;
  function_class_localization :
    string → string → list string → string → string → option string
    → result string;
  line_level_localization :
    string → string → list string → string → string → option string
    → result string;
  dict_str : gmap string string → string
}.

(** Computations that may raise and that record the requests sent to the
    service. *)
Definition M (A : Type) : Type := list request → result A * list request.

#[global] Instance M_ret : MRet M := λ A a log, (Ok a, log).
#[global] Instance M_bind : MBind M := λ A B k m log,
  match m log with
  | (Ok a, log') => k a log'
  | (Raise e, log') => (Raise e, log')
  end.

Definition lift {A : Type} (r : result A) : M A := λ log, (r, log).

(** [ContextGenerator.__init__]: the field [client]. *)
Definition init_client (openai_api_key : option string) (svc : service)
    : option service :=
  match openai_api_key with
  | Some k => if Py.is_empty k then None else Some svc
  | None => None
  end.

Definition default_model : string := "gpt-3.5-turbo".

(** A request with the default model, as [process_task] sends them. *)
Abbreviation rq p := (Request default_model p).

Definition get_llm_response (client : option service) (prompt model : string)
    : M string :=
  λ log,
    match client with
    | None => (Raise (ValueError "OpenAI API key not provided"), log)
    | Some svc =>
        let rq := Request model prompt in
        (svc log rq, log ++ [rq])
    end.

(** The identifier of one bullet line. *)
Definition file_of_line (line : string) : string :=
  Py.strip (Py.strip_chars "- " (default "" (head (Py.split "("%char line)))).

Definition extract_top_files (llm_response : string) : list string :=
  file_of_line <$> filter (λ line, Py.startswith "- " line = true)
                     (Py.split Py.LF llm_response).

(** The list comprehension passed as [target_functions]. *)
Definition target_functions (func_response : string) : list string :=
  Py.strip_chars "- " <$> filter (λ func, Py.startswith "- " func = true)
                            (Py.split Py.LF func_response).

(** [d[k]] and [d.get(k, "")]. *)
Definition getitem (d : gmap string string) (k : string) : result string :=
  match d !! k with
  | Some v => Ok v
  | None => Raise (KeyError k)
  end.

Definition get (d : gmap string string) (k : string) : string :=
  default "" (d !! k).

Record task_result : Type := TaskResult {
  repository_info : gmap string string;
  file_level_analysis : string;
  function_class_analysis : string;
  line_level_analysis : string;
  test_case : string
}.

Definition test_case_prompt (an : analyzer)
    (repo_info task_data : gmap string string)
    (file_response func_response line_response : string) : string :=
  "Based on the following information, generate a test case:" +:+ Py.NL +:+
  Py.NL +:+ "Repository Information:" +:+ Py.NL +:+
  dict_str an repo_info +:+ Py.NL +:+
  Py.NL +:+ "File Level Analysis:" +:+ Py.NL +:+
  file_response +:+ Py.NL +:+
  Py.NL +:+ "Function/Class Analysis:" +:+ Py.NL +:+
  func_response +:+ Py.NL +:+
  Py.NL +:+ "Line Level Analysis:" +:+ Py.NL +:+
  line_response +:+ Py.NL +:+
  Py.NL +:+ "Task Information:" +:+ Py.NL +:+
  dict_str an task_data +:+ Py.NL +:+
  Py.NL +:+ "Original Patch:" +:+ Py.NL +:+
  get task_data "model_patch" +:+ Py.NL +:+
  Py.NL +:+ "Generate a comprehensive test case that:" +:+ Py.NL +:+
  "1. Tests the identified functionality" +:+ Py.NL +:+
  "2. Includes necessary imports" +:+ Py.NL +:+
  "3. Follows the project's testing conventions" +:+ Py.NL +:+
  "4. Handles edge cases" +:+ Py.NL +:+
  "5. Includes proper documentation" +:+ Py.NL.

Definition process_task (an : analyzer) (client : option service)
    (github_token : option string) (task_data : gmap string string)
    : M task_result :=
  let issue := get task_data "issue_description" in
  let patch := get task_data "model_patch" in
  repo_info ← lift (derive_repo_info an task_data);
  owner ← lift (getitem repo_info "repo_owner");
  name ← lift (getitem repo_info "repo_name");
  file_prompt ← lift (file_level_localization an owner name issue patch
                        github_token);
  file_response ← get_llm_response client file_prompt default_model;
  let top_files := extract_top_files file_response in
  owner ← lift (getitem repo_info "repo_owner");
  name ← lift (getitem repo_info "repo_name");
  func_prompt ← lift (function_class_localization an owner name top_files
                        issue patch github_token);
  func_response ← get_llm_response client func_prompt default_model;
  owner ← lift (getitem repo_info "repo_owner");
  name ← lift (getitem repo_info "repo_name");
  line_prompt ← lift (line_level_localization an owner name
                        (target_functions func_response) issue patch
                        github_token);
  line_response ← get_llm_response client line_prompt default_model;
  test_case ← get_llm_response client
                (test_case_prompt an repo_info task_data file_response
                   func_response line_response) default_model;
  mret (TaskResult repo_info file_response func_response line_response
          test_case).

End ContextGenerator.

(** ** Notions used to state the properties *)

Module Notions.

(** A line that begins with a space or a tab. *)
Definition indented (line : string) : bool :=
  match line with
  | String c _ => Py.ascii_eqb c " "%char || Py.ascii_eqb c "009"%char
  | "" => false
  end.

(** The lines of index [i] with [a <= i < b], for [0 <= a]: the window that
    runs from line [a] to line [b]. *)
Definition window (lines : list string) (a b : Z) : list string :=
  take (Z.to_nat (b - a)) (drop (Z.to_nat a) lines).

(** Two answers of [os.listdir] for one directory that differ at most in
    the order of the names. *)
Definition same_listing (r1 r2 : result (list string)) : Prop :=
  match r1, r2 with
  | Ok l1, Ok l2 => l1 ≡ₚ l2
  | Raise e1, Raise e2 => e1 = e2
  | _, _ => False
  end.

(** Two views of one repository snapshot. *)
Definition same_snapshot (v1 v2 : CodebaseAnalyzer.os_view) : Prop :=
  (∀ p, CodebaseAnalyzer.isdir v1 p = CodebaseAnalyzer.isdir v2 p) ∧
  (∀ p, same_listing (CodebaseAnalyzer.listdir v1 p)
          (CodebaseAnalyzer.listdir v2 p)).

(** The directory [p] can be listed, and so can every directory below it,
    down to at most [d] levels. *)
Inductive finite_tree (v : CodebaseAnalyzer.os_view) : string → nat → Prop :=
  | finite_tree_dir (p : string) (d : nat) (items : list string) :
      CodebaseAnalyzer.listdir v p = Ok items →
      (∀ item, item ∈ items →
         CodebaseAnalyzer.isdir v (CodebaseAnalyzer.path_join p item) = true →
         finite_tree v (CodebaseAnalyzer.path_join p item) d) →
      finite_tree v p (S d).

End Notions.

(** ** Concrete inputs used in the examples *)

Module Sample.

Definition task : gmap string string := {[ "test_file" := "t.py" ]}.

(** A writable test file without the marker. *)
Definition disk : Fs.fs := {[ "t.py" := Fs.File "x" true true ]}.

(** A writable current directory in which the test file is missing. *)
Definition empty_dir : Fs.fs := {[ "." := Fs.Dir true ]}.

(** A read-only test file that already holds the marker. *)
Definition marked_readonly : Fs.fs :=
  {[ "t.py" := Fs.File "# UTBoost Generated Tests" true false ]}.

(** A read-only test file without the marker. *)
Definition readonly : Fs.fs := {[ "t.py" := Fs.File "x" true false ]}.

(** A scripted analyzer and a scripted service. The service answers the
    function stage with an empty text. *)
Definition repo : gmap string string :=
  {[ "repo_owner" := "sympy"; "repo_name" := "sympy" ]}.

Definition analyzer : ContextGenerator.analyzer :=
  ContextGenerator.Analyzer
    (λ _, Ok repo)
    (λ _ _ _ _ _, Ok "FILE")
    (λ _ _ _ _ _ _, Ok "FUNCTION")
    (λ _ _ _ _ _ _, Ok "LINE")
    (λ _, "{}").

Definition service : ContextGenerator.service :=
  λ _ rq,
    let p := ContextGenerator.req_prompt rq in
    if bool_decide (p = "FILE") then Ok "- a.py (why)"
    else if bool_decide (p = "FUNCTION") then Ok ""
    else if bool_decide (p = "LINE") then Ok "f: 1-2"
    else Ok "def test_f(): pass".

Definition job : gmap string string :=
  {[ "issue_description" := "bug"; "model_patch" := "diff" ]}.

(** A readable file of three lines. *)
Definition three_lines : Fs.fs :=
  {[ "f.py" := Fs.File ("a" +:+ Py.NL +:+ "b" +:+ Py.NL +:+ "c" +:+ Py.NL)
                 true true ]}.

(** A module with a class, a method and a function. *)
Definition module_text : string :=
  "class Foo:" +:+ Py.NL +:+
  "    def bar():" +:+ Py.NL +:+
  "        pass" +:+ Py.NL +:+
  Py.NL +:+
  "def baz():" +:+ Py.NL +:+
  "    return 1" +:+ Py.NL.

(** A file that holds one class and nothing else. *)
Definition class_text : string :=
  "class Foo(Base):" +:+ Py.NL +:+
  "    x = 1" +:+ Py.NL +:+
  "    def bar(self):" +:+ Py.NL +:+
  "        return self.x" +:+ Py.NL.

(** The directory /pkg with a.py, b.py and a subdirectory, listed in two
    different orders. *)
Definition pkg_listing (top : list string) (p : string)
    : result (list string) :=
  if bool_decide (p = "/pkg") then Ok top
  else if bool_decide (p = "/pkg/sub") then Ok ["c.py"]
  else Raise (NotADirectoryError p).

Definition pkg_isdir (p : string) : bool :=
  bool_decide (p = "/pkg") || bool_decide (p = "/pkg/sub").

Definition pkg1 : CodebaseAnalyzer.os_view :=
  CodebaseAnalyzer.OsView (pkg_listing ["b.py"; "sub"; "a.py"]) pkg_isdir.

Definition pkg2 : CodebaseAnalyzer.os_view :=
  CodebaseAnalyzer.OsView (pkg_listing ["a.py"; "b.py"; "sub"]) pkg_isdir.

(** A repository with one module and one package directory. *)
Definition repo_fs : Fs.fs :=
  {[ "repo/a.py" := Fs.File class_text true true;
     "repo/pkg" := Fs.Dir true ]}.

(** An evaluation directory whose predictions file has two records and a
    line that is not JSON, with a parser scripted for these three lines. *)
Definition eval_fs : Fs.fs :=
  {[ "eval/agent/all_preds.json" :=
       Fs.File ("r1" +:+ Py.NL +:+ "r2" +:+ Py.NL +:+ "broken" +:+ Py.NL)
         true true ]}.

Definition loads (line : string) : result TestGenerator.json :=
  if bool_decide (line = "r1" +:+ Py.NL) then
    Ok (TestGenerator.JDict
          [("instance_id", TestGenerator.JStr "i1");
           ("model_patch", TestGenerator.JStr "p1")])
  else if bool_decide (line = "r2" +:+ Py.NL) then
    Ok (TestGenerator.JDict
          [("instance_id", TestGenerator.JStr "i2");
           ("issue_description", TestGenerator.JStr "d2");
           ("model_patch", TestGenerator.JStr "p2")])
  else Raise (ValueError "Expecting value").

(** A service that answers the file stage and fails the function stage. *)
Definition flaky : ContextGenerator.service :=
  λ _ rq,
    if bool_decide (ContextGenerator.req_prompt rq = "FILE")
    then Ok "- a.py (why)"
    else Raise (ServiceError "overloaded").

End Sample.

(** ** Notions used to state further properties *)

Module Outline.
Import CodebaseAnalyzer.

(** What the compression loop appends for one line. *)
Definition emit (line : string) : list string :=
  if decorator_match line then [Py.strip line]
  else match class_match line with
       | Some g => [g]
       | None => match func_match line with
                 | Some g => [g]
                 | None => []
                 end
       end.

(** The text has no line feed. *)
Definition one_line (s : string) : Prop := Py.mem Py.LF s = false.

(** The text is empty or ends with a line feed. *)
Definition closed (s : string) : Prop := s = "" ∨ ∃ s', s = s' +:+ Py.NL.

(** Every character of the text satisfies [p]. *)
Fixpoint all_chars (p : ascii → bool) (s : string) : bool :=
  match s with
  | "" => true
  | String c r => p c && all_chars p r
  end.

(** The text does not begin with a character that satisfies [p]. *)
Definition head_not (p : ascii → bool) (s : string) : Prop :=
  match s with
  | "" => True
  | String c _ => p c = false
  end.

(** A line as a file object yields it: not empty, with no line feed except
    possibly as its last character. *)
Definition line_wf (l : string) : Prop :=
  l ≠ "" ∧ ∃ body, one_line body ∧ (l = body ∨ l = body +:+ Py.NL).

(** A list of lines as a file object yields them: every line but the last
    ends with its line feed. *)
Fixpoint lines_ok (ls : list string) : Prop :=
  match ls with
  | [] => True
  | [l] => line_wf l
  | l :: ls' => (∃ body, one_line body ∧ l = body +:+ Py.NL) ∧ lines_ok ls'
  end.

(** The line of a name in the tree at a given indentation, without what
    ends it. *)
Definition stem (indent : nat) (item : string) : string :=
  Py.repeat CodebaseAnalyzer.bar indent +:+ CodebaseAnalyzer.tee +:+ item.

(** An identifier as the prompt asks for it: not empty, on one line, with
    no opening parenthesis, and with no blank and no dash at either end. *)
Definition clean_identifier (name : string) : Prop :=
  name ≠ "" ∧ Py.mem "(" name = false ∧ one_line name ∧
  Py.strip_chars "- " name = name ∧ Py.strip name = name.

End Outline.

Module Requests.
Import ContextGenerator.

(** The computation [m] sends at most [n] requests, all of them for the
    default model and after the ones already sent, and sends exactly [n] when
    it returns. *)
Definition sends {A : Type} (n : nat) (m : M A) : Prop :=
  ∀ log, ∃ new,
    (m log).2 = log ++ new ∧ (length new ≤ n)%nat ∧
    (is_ok (m log).1 = true → length new = n) ∧
    Forall (λ q, req_model q = default_model) new.

(** When the service fails a request that [m] sends, that request is the
    last one [m] sends and [m] raises the error of the service. *)
Definition fail_fast {A : Type} (svc : service) (m : M A) : Prop :=
  ∀ log, ∃ new,
    (m log).2 = log ++ new ∧
    ∀ pre q post e,
      new = pre ++ q :: post → svc (log ++ pre) q = Raise e →
      post = [] ∧ (m log).1 = Raise e.

End Requests.

Module Records.
Import TestGenerator.

(** The line parses to a record of another instance. *)
Definition other_record (json_loads : string → result json)
    (instance_id line : string) : Prop :=
  ∃ d, json_loads line = Ok (JDict d) ∧ id_matches d instance_id = false.

(** The path of the predictions file of an agent. *)
Definition preds_file (eval_dir agent_name : string) : string :=
  CodebaseAnalyzer.path_join (CodebaseAnalyzer.path_join eval_dir agent_name)
    "all_preds.json".

End Records.

(** * Properties *)

(** ** Strings *)

Section StringFacts.

Lemma app_cons (c : ascii) (a b : string) :
  String c a +:+ b = String c (a +:+ b).
Proof. reflexivity. Qed.

Lemma app_empty_l (a : string) : "" +:+ a = a.
Proof. reflexivity. Qed.

Lemma app_empty_r (a : string) : a +:+ "" = a.
Proof. induction a as [|c a IH]; [done|]. by rewrite app_cons, IH. Qed.

Lemma app_assoc_s (a b c : string) : (a +:+ b) +:+ c = a +:+ (b +:+ c).
Proof.
  induction a as [|x a IH]; [done|]. by rewrite !app_cons, IH.
Qed.

Lemma ascii_eqb_refl (c : ascii) : Py.ascii_eqb c c = true.
Proof. unfold Py.ascii_eqb. by rewrite bool_decide_eq_true. Qed.

Lemma ascii_eqb_eq (a b : ascii) : Py.ascii_eqb a b = true ↔ a = b.
Proof. unfold Py.ascii_eqb. by rewrite bool_decide_eq_true. Qed.

Lemma is_empty_true (s : string) : Py.is_empty s = true ↔ s = "".
Proof. by destruct s. Qed.

Lemma startswith_app (n b : string) : Py.startswith n (n +:+ b) = true.
Proof.
  induction n as [|c n IH]; [done|].
  rewrite app_cons. simpl. by rewrite ascii_eqb_refl, IH.
Qed.

Lemma contains_here (n b : string) : Py.contains n (n +:+ b) = true.
Proof.
  destruct (n +:+ b) eqn:E; simpl; rewrite <- E, startswith_app; done.
Qed.

Lemma contains_app_r (n a b : string) :
  Py.contains n b = true → Py.contains n (a +:+ b) = true.
Proof.
  intros H. induction a as [|c a IH]; [done|].
  rewrite app_cons. simpl. rewrite IH. apply orb_true_r.
Qed.

End StringFacts.

(** ** Test injection *)

Section InjectionClaims.
Import Fs.

(** C1 on a test file that holds the text x, for the texts a and b, and on
    a file that holds the marker already. The first call of the snapshot
    raises NameError at the call of [Path] and writes nothing, so the marker
    never reaches the file; the second call raises the same error and does
    not return the path. On the file that holds the marker the call raises as
    well: the test for the marker is never reached. The current function
    raises in the same way. The text of the file stays x throughout. *)
Theorem inject_tests_twice_raises :
  Harness_20250419213149.inject_tests Sample.task "a" Sample.disk
    = (Raise (NameError "name 'Path' is not defined"), Sample.disk) ∧
  Harness_20250419213149.inject_tests Sample.task "b" Sample.disk
    = (Raise (NameError "name 'Path' is not defined"), Sample.disk) ∧
  Harness_20250419213149.inject_tests Sample.task "b" Sample.marked_readonly
    = (Raise (NameError "name 'Path' is not defined"),
       Sample.marked_readonly) ∧
  Harness.inject_tests Sample.task "a" Sample.disk
    = (Raise (NameError "name 'Path' is not defined"), Sample.disk) ∧
  Harness.inject_tests Sample.task "b" Sample.disk
    = (Raise (NameError "name 'Path' is not defined"), Sample.disk) ∧
  content Sample.disk "t.py" = Some "x".
Proof. repeat split. Qed.

(** C5 on three inputs. With the text a and a target that does not exist the
    snapshot raises NameError, not FileNotFoundError; with the text a and a
    target without marker that cannot be opened for append it raises
    NameError, not PermissionError; with an empty text it raises ValueError,
    as stated. The current function raises NameError on an empty text as on
    any other. No call changes the file system. *)
Theorem inject_tests_raises_name_error :
  Harness_20250419213149.inject_tests Sample.task "a" Sample.empty_dir
    = (Raise (NameError "name 'Path' is not defined"), Sample.empty_dir) ∧
  Harness_20250419213149.inject_tests Sample.task "a" Sample.readonly
    = (Raise (NameError "name 'Path' is not defined"), Sample.readonly) ∧
  Harness_20250419213149.inject_tests Sample.task "" Sample.disk
    = (Raise (ValueError "utboost_tests must be a non-empty string"),
       Sample.disk) ∧
  Harness.inject_tests Sample.task "" Sample.disk
    = (Raise (NameError "name 'Path' is not defined"), Sample.disk) ∧
  Harness.inject_tests Sample.task "a" Sample.empty_dir
    = (Raise (NameError "name 'Path' is not defined"), Sample.empty_dir).
Proof. repeat split. Qed.

End InjectionClaims.

(** ** Code compression *)

Section Compression.
Import CodebaseAnalyzer Notions.

Lemma strip_prefix_app (p s r : string) :
  strip_prefix p s = Some r → s = p +:+ r.
Proof.
  revert s. induction p as [|a p IH]; intros [|b s]; simpl; try done.
  - by intros [= <-].
  - by intros [= <-].
  - destruct (Py.ascii_eqb a b) eqn:E; [|done].
    apply ascii_eqb_eq in E as ->. intros H%IH. by rewrite H.
Qed.

Lemma span_app (p : ascii → bool) (s a b : string) :
  span p s = (a, b) → s = a +:+ b.
Proof.
  revert a b. induction s as [|c s IH]; intros a b; simpl.
  - by intros [= <- <-].
  - destruct (p c).
    + destruct (span p s) as [a' b'] eqn:E. intros [= <- <-].
      by rewrite app_cons, <- (IH a' b' eq_refl).
    + by intros [= <- <-].
Qed.

Lemma upto_colon_app (s t : string) :
  upto_colon s = Some t → ∃ rest, s = t +:+ rest.
Proof.
  revert t. induction s as [|c s IH]; intros t; simpl; [done|].
  destruct (Py.ascii_eqb c ":"); [intros [= <-]; by exists s|].
  destruct (Py.ascii_eqb c Py.LF); [done|].
  destruct (upto_colon s) as [t'|]; [|done].
  intros [= <-]. destruct (IH t' eq_refl) as [rest ->]. by exists rest.
Qed.

(** The text a header pattern captures is the beginning of the line. *)
Lemma header_match_app (kw line g : string) :
  header_match kw line = Some g →
  (∃ rest, line = g +:+ rest) ∧ ∃ rest, line = kw +:+ rest.
Proof.
  unfold header_match.
  destruct (strip_prefix kw line) as [r0|] eqn:E0; [|done].
  apply strip_prefix_app in E0 as ->.
  destruct (span Py.isspace r0) as [blanks r1] eqn:E1.
  destruct (span Py.isword r1) as [name r2] eqn:E2.
  apply span_app in E1 as ->. apply span_app in E2 as ->.
  destruct (_ || _); [done|].
  destruct (upto_colon r2) as [tail|] eqn:E3; [|done].
  apply upto_colon_app in E3 as [rest ->]. intros [= <-].
  split; [|by eexists].
  exists rest. by rewrite !app_assoc_s.
Qed.

Lemma header_match_indented (kw line : string) :
  kw ≠ "" → indented line = true →
  Py.mem " " kw = false → Py.mem "009" kw = false →
  header_match kw line = None.
Proof.
  intros Hkw Hind Hsp Htab. unfold header_match.
  destruct kw as [|a kw]; [done|]. destruct line as [|c line]; [done|].
  simpl in *. destruct (Py.ascii_eqb a c) eqn:E; [|done].
  apply ascii_eqb_eq in E as ->.
  apply orb_false_elim in Hsp as [Hsp _].
  apply orb_false_elim in Htab as [Htab _].
  unfold Py.ascii_eqb in *.
  apply orb_true_iff in Hind as [H|H]; apply bool_decide_eq_true in H;
    subst c; [by rewrite bool_decide_eq_true_2 in Hsp
             |by rewrite bool_decide_eq_true_2 in Htab].
Qed.

(** An indented line matches none of the three patterns: the loop emits
    nothing for it. *)
Lemma scan_line_indented (st : scan) (line : string) :
  indented line = true →
  compressed (scan_line st line) = compressed st.
Proof.
  intros Hind. unfold scan_line, class_match, func_match.
  rewrite !header_match_indented by done.
  assert (decorator_match line = false) as ->.
  { destruct line as [|c [|b line]]; try done. simpl in *.
    unfold Py.ascii_eqb in *.
    destruct (bool_decide (c = "@"%char)) eqn:E; [|done].
    apply bool_decide_eq_true in E as ->. done. }
  repeat case_match; done.
Qed.

Lemma scan_lines_indented (st : scan) (body : list string) :
  Forall (λ l, indented l = true) body →
  compressed (foldl scan_line st body) = compressed st.
Proof.
  intros H. revert st. induction H as [|l body Hl _ IH]; intros st; [done|].
  simpl. by rewrite IH, scan_line_indented.
Qed.

Lemma scan_line_class (st : scan) (line g : string) :
  class_match line = Some g →
  compressed (scan_line st line) = compressed st ++ [g].
Proof.
  intros H. unfold scan_line. rewrite H.
  destruct (header_match_app _ _ _ H) as [_ [rest ->]]. done.
Qed.

(** C3 (as amended). Compressing the text of the scenario yields the two
    headers that start a line, "class Foo:" and "def baz():"; the header of
    the method, which is indented, is not part of the outline. *)
Theorem compress_module_text :
  compress Sample.module_text = ["class Foo:"; "def baz():"].
Proof. reflexivity. Qed.

(** C3 as stated fails: the outline of the scenario has no "def bar():". *)
Lemma compress_module_text_no_method :
  compress Sample.module_text ≠ ["class Foo:"; "def bar():"; "def baz():"].
Proof. vm_compute. discriminate. Qed.

(** C6. When a file consists of a class header followed by indented lines
    only, its outline is the class header alone, in the form the pattern
    captures (the line up to its first colon after the name): no text of
    the body is emitted. Blank lines play no part in this. *)
Theorem compress_class_only (text header g : string) (body : list string) :
  Py.readlines text = header :: body →
  class_match header = Some g →
  Forall (λ l, indented l = true) body →
  compress text = [g] ∧ ∃ rest, header = g +:+ rest.
Proof.
  intros Hlines Hcls Hbody. split.
  - unfold compress, scan_lines. rewrite Hlines. simpl.
    rewrite scan_lines_indented by done.
    by rewrite (scan_line_class _ _ g).
  - apply (header_match_app "class" header g Hcls).
Qed.

Lemma compress_class_only_witness :
  compress Sample.class_text = ["class Foo(Base):"].
Proof.
  refine (proj1 (compress_class_only Sample.class_text
                   ("class Foo(Base):" +:+ Py.NL) "class Foo(Base):"
                   ["    x = 1" +:+ Py.NL; "    def bar(self):" +:+ Py.NL;
                    "        return self.x" +:+ Py.NL] _ _ _)).
  - reflexivity.
  - reflexivity.
  - repeat constructor.
Defined.

End Compression.

(** ** The repository tree *)

Section Tree.
Import CodebaseAnalyzer Notions.

Lemma sorted_permutation (l1 l2 : list string) :
  l1 ≡ₚ l2 → sorted l1 = sorted l2.
Proof.
  intros H. unfold sorted.
  apply (Sorted_unique String.le); [apply Sorted_merge_sort, _..|].
  by rewrite !merge_sort_Permutation.
Qed.

Lemma sorted_elem_of (x : string) (l : list string) :
  x ∈ sorted l ↔ x ∈ l.
Proof. unfold sorted. by rewrite merge_sort_Permutation. Qed.

Lemma for_each_ext {S A : Type} (f g : S → A → result S) (xs : list A) s :
  (∀ s x, x ∈ xs → f s x = g s x) → for_each f xs s = for_each g xs s.
Proof.
  revert s. induction xs as [|x xs IH]; intros s H; [done|].
  simpl. rewrite (H s x) by left.
  destruct (g s x) as [s'|e]; [|done]. simpl.
  apply IH. intros s0 y Hy. apply H. by right.
Qed.

Lemma for_each_ok {S A : Type} (f : S → A → result S) (xs : list A) s :
  (∀ s x, x ∈ xs → ∃ s', f s x = Ok s') → ∃ s', for_each f xs s = Ok s'.
Proof.
  revert s. induction xs as [|x xs IH]; intros s H; [by eexists|].
  simpl. destruct (H s x) as [s1 ->]; [left|]. simpl.
  apply IH. intros s0 y Hy. apply H. by right.
Qed.

(** The text does not depend on the order in which the names arrive. *)
Lemma build_tree_order_independent (v1 v2 : os_view) :
  same_snapshot v1 v2 →
  ∀ depth dir_path indent,
    build_tree v1 depth dir_path indent = build_tree v2 depth dir_path indent.
Proof.
  intros [Hdir Hls] depth.
  induction depth as [|depth IH]; intros dir_path indent; [done|].
  simpl. specialize (Hls dir_path). unfold same_listing in Hls.
  destruct (listdir v1 dir_path) as [l1|e1], (listdir v2 dir_path) as [l2|e2];
    try done; [|by subst].
  simpl. rewrite (sorted_permutation l1 l2 Hls).
  apply for_each_ext. intros s x _. unfold render_item.
  by rewrite Hdir, IH.
Qed.

(** On a finite tree within the depth allowed, the call returns a text. *)
Lemma build_tree_returns (v : os_view) (d : nat) :
  ∀ dir_path depth indent,
    finite_tree v dir_path d → (d ≤ depth)%nat →
    ∃ text, build_tree v depth dir_path indent = Ok text.
Proof.
  induction d as [|d IH]; intros dir_path depth indent Hfin Hle;
    inversion Hfin as [p d' items Hitems Hsub]; subst.
  destruct depth as [|depth]; [lia|]. simpl. rewrite Hitems. simpl.
  apply for_each_ok. intros s x Hx. rewrite sorted_elem_of in Hx.
  unfold render_item.
  destruct (isdir v (path_join dir_path x)) eqn:E; [|by eexists].
  assert (finite_tree v (path_join dir_path x) d) as Hf by (by apply Hsub).
  assert (d ≤ depth)%nat as Hd by lia.
  destruct (IH (path_join dir_path x) depth (S indent) Hf Hd) as [sub ->].
  by eexists.
Qed.

(** C7. For two views of one snapshot, which list the same names at every
    directory in whatever order, [build_tree] gives the same outcome at
    every directory; and on a finite tree both calls return the same text.
    The names are sorted before they are rendered. *)
Theorem build_tree_deterministic (v1 v2 : os_view) :
  same_snapshot v1 v2 →
  (∀ depth dir_path indent,
     build_tree v1 depth dir_path indent = build_tree v2 depth dir_path indent)
  ∧
  (∀ root d depth,
     finite_tree v1 root d → (d ≤ depth)%nat →
     ∃ text, build_tree v1 depth root 0 = Ok text ∧
             build_tree v2 depth root 0 = Ok text).
Proof.
  intros Hsame. split.
  - by apply build_tree_order_independent.
  - intros root d depth Hfin Hle.
    destruct (build_tree_returns v1 d root depth 0 Hfin Hle) as [text Ht].
    exists text. split; [done|].
    by rewrite <- (build_tree_order_independent v1 v2 Hsame).
Qed.

Lemma build_tree_deterministic_witness :
  ∃ text, build_tree Sample.pkg1 1000 "/pkg" 0 = Ok text ∧
          build_tree Sample.pkg2 1000 "/pkg" 0 = Ok text.
Proof.
  refine (proj2 (build_tree_deterministic Sample.pkg1 Sample.pkg2 _)
            "/pkg" 2%nat 1000%nat _ _).
  - split; [reflexivity|].
    intros p. simpl. unfold Sample.pkg_listing.
    repeat case_bool_decide; simpl; try done.
    symmetry. apply (Permutation_cons_append ["b.py"; "sub"] "a.py").
  - apply (finite_tree_dir _ "/pkg" 1 ["b.py"; "sub"; "a.py"]);
      [reflexivity|].
    intros item Hin Hd.
    apply elem_of_cons in Hin as [->|Hin]; [discriminate Hd|].
    apply elem_of_cons in Hin as [->|Hin].
    + apply (finite_tree_dir _ "/pkg/sub" 0 ["c.py"]); [reflexivity|].
      intros item Hin Hd'.
      apply list_elem_of_singleton in Hin as ->. discriminate Hd'.
    + apply list_elem_of_singleton in Hin as ->. discriminate Hd.
  - lia.
Defined.

End Tree.

(** ** Context windows *)

Section ContextWindow.
Import TestGenerator Notions.

Lemma slice_index_range (len i : Z) :
  0 ≤ len → 0 ≤ slice_index len i ≤ len.
Proof. intros H. unfold slice_index. destruct (Z.ltb_spec i 0); lia. Qed.

Lemma slice_index_nonneg (len i : Z) :
  0 ≤ i → slice_index len i = Z.min i len.
Proof. intros H. unfold slice_index. destruct (Z.ltb_spec i 0); [lia|done]. Qed.

(** With a stop that is not negative the slice is the window between the
    two clamped bounds. *)
Lemma py_slice_window {A : Type} (l : list A) (start stop : Z) :
  0 ≤ start → 0 ≤ stop →
  py_slice l start stop =
    take (Z.to_nat (stop - start)) (drop (Z.to_nat start) l).
Proof.
  intros Ha Hb. unfold py_slice.
  rewrite !slice_index_nonneg by done.
  set (len := Z.of_nat (length l)).
  destruct (Z.le_gt_cases len start) as [Hge|Hlt].
  - rewrite (Z.min_r start len) by lia.
    rewrite !drop_ge by lia. by rewrite !take_nil.
  - rewrite (Z.min_l start) by lia.
    destruct (Z.le_gt_cases stop len) as [Hs|Hs].
    + by rewrite (Z.min_l stop len) by lia.
    + rewrite (Z.min_r stop len) by lia.
      rewrite !take_ge; [done|rewrite length_drop; lia..].
Qed.

(** The part of the clamping that the code achieves: when [end + window]
    is not negative, the text returned is the window from
    [max(0, start - window)] to [min(len(lines), end + window)]. *)
Lemma get_context_window_clamped (σ : Fs.fs) (file_path text : string)
    (wr : bool) (s e w : Z) :
  σ !! file_path = Some (Fs.File text true wr) →
  0 ≤ e + w →
  let lines := Py.readlines text in
  get_context_window σ file_path (s, e) w =
    Ok (Py.concat (window lines (Z.max 0 (s - w))
                     (Z.min (Z.of_nat (length lines)) (e + w)))).
Proof.
  intros Hf He lines. unfold get_context_window, Fs.read. rewrite Hf.
  simpl. fold lines. unfold window. rewrite py_slice_window; [done|lia..].
Qed.

(** C8 at a range that lies before the file: on the three lines a, b, c
    the call for the range (-2, -1) with a window of 0 returns the first
    two lines, while no line has an index between [max(0, -2)] and
    [min(3, -1)]. The start is clamped at 0, the end is not, and the slice
    counts a negative end from the end of the file. *)
Theorem get_context_window_negative_end :
  get_context_window Sample.three_lines "f.py" (-2, -1) 0 =
    Ok ("a" +:+ Py.NL +:+ "b" +:+ Py.NL) ∧
  Py.concat (window ["a" +:+ Py.NL; "b" +:+ Py.NL; "c" +:+ Py.NL]
               (Z.max 0 (-2 - 0)) (Z.min 3 (-1 + 0))) = "".
Proof. split; reflexivity. Qed.

(** C10. On an existing, readable file, when the clamped start
    [max(0, start - window)] is at or past the number of lines, the call
    returns the empty string. *)
Theorem get_context_window_past_end (σ : Fs.fs) (file_path text : string)
    (wr : bool) (target_lines : Z * Z) (window_size : Z) :
  σ !! file_path = Some (Fs.File text true wr) →
  Z.of_nat (length (Py.readlines text))
    ≤ Z.max 0 (target_lines.1 - window_size) →
  get_context_window σ file_path target_lines window_size = Ok "".
Proof.
  intros Hf Hpast. unfold get_context_window, Fs.read. rewrite Hf. simpl.
  set (lines := Py.readlines text) in *.
  set (len := Z.of_nat (length lines)) in *.
  unfold py_slice. fold len.
  assert (0 ≤ len) as Hlen by (unfold len; lia).
  rewrite (slice_index_nonneg len (Z.max 0 _)) by lia.
  rewrite (Z.min_r _ len) by lia.
  pose proof (slice_index_range len
                (Z.min len (target_lines.2 + window_size)) Hlen) as Hb.
  replace (Z.to_nat (_ - len)) with 0%nat by lia. done.
Qed.

Lemma get_context_window_past_end_witness :
  get_context_window Sample.three_lines "f.py" (20, 25) 10 = Ok "".
Proof.
  apply (get_context_window_past_end Sample.three_lines "f.py"
           ("a" +:+ Py.NL +:+ "b" +:+ Py.NL +:+ "c" +:+ Py.NL) true
           (20, 25) 10).
  - reflexivity.
  - vm_compute. discriminate.
Defined.

End ContextWindow.

(** ** Response parsing and the pipeline *)

Section Pipeline.
Import ContextGenerator.

Lemma split_nonempty (sep : ascii) (s : string) : Py.split sep s ≠ [].
Proof.
  destruct s as [|c s]; simpl; [done|].
  destruct (Py.ascii_eqb c sep); [done|]. by destruct (Py.split sep s).
Qed.

(** Splitting distributes over a separator. *)
Lemma split_app (sep : ascii) (a b : string) :
  Py.split sep (a +:+ String sep b) = Py.split sep a ++ Py.split sep b.
Proof.
  induction a as [|c a IH].
  - rewrite app_empty_l. simpl. by rewrite ascii_eqb_refl.
  - rewrite app_cons. simpl. destruct (Py.ascii_eqb c sep); [by rewrite IH|].
    rewrite IH. pose proof (split_nonempty sep a).
    by destruct (Py.split sep a).
Qed.

(** C2 (as amended). [process_task] never looks at the candidates it
    parsed. When the answer of the function stage holds no candidate, the
    prompt of the line stage is still built, from an empty list, and sent;
    the run goes on to the request for the test case and returns the
    record of all answers when the service answers. *)
Theorem process_task_empty_function_stage (an : analyzer) (svc : service)
    (token : option string) (task info : gmap string string)
    (owner name fp fr up ur lp : string) :
  let issue := get task "issue_description" in
  let patch := get task "model_patch" in
  derive_repo_info an task = Ok info →
  info !! "repo_owner" = Some owner →
  info !! "repo_name" = Some name →
  file_level_localization an owner name issue patch token = Ok fp →
  svc [] (rq fp) = Ok fr →
  function_class_localization an owner name (extract_top_files fr)
    issue patch token = Ok up →
  svc [rq fp] (rq up) = Ok ur →
  target_functions ur = [] →
  line_level_localization an owner name [] issue patch token = Ok lp →
  process_task an (Some svc) token task [] =
    match svc [rq fp; rq up] (rq lp) with
    | Raise e => (Raise e, [rq fp; rq up; rq lp])
    | Ok lr =>
        let tp := test_case_prompt an info task fr ur lr in
        (tc ← svc [rq fp; rq up; rq lp] (rq tp);
         Ok (TaskResult info fr ur lr tc),
         [rq fp; rq up; rq lp; rq tp])
    end.
Proof.
  intros issue patch Hinfo Ho Hn Hfp Hfr Hup Hur Hnone Hlp.
  unfold process_task, mbind, M_bind, lift, get_llm_response, getitem.
  fold issue patch. rewrite Hinfo, Ho, Hn, Hfp. simpl. rewrite Hfr, Hup.
  simpl. rewrite Hur, Hnone, Hlp. simpl.
  destruct (svc [rq fp; rq up] (rq lp)) as [lr|e]; [|done]. simpl.
  by destruct (svc [rq fp; rq up; rq lp] _).
Qed.

Lemma process_task_empty_function_stage_witness :
  (process_task Sample.analyzer (Some Sample.service) None Sample.job []).2
  = [rq "FILE"; rq "FUNCTION"; rq "LINE";
     rq (test_case_prompt Sample.analyzer Sample.repo Sample.job
           "- a.py (why)" "" "f: 1-2")].
Proof.
  rewrite (process_task_empty_function_stage Sample.analyzer Sample.service
             None Sample.job Sample.repo "sympy" "sympy"
             "FILE" "- a.py (why)" "FUNCTION" "" "LINE");
    reflexivity.
Defined.

(** C2 as stated fails: with a function stage that answers nothing, the
    run still sends the request of the line stage and ends with a result. *)
Lemma process_task_invokes_line_stage :
  let run :=
    process_task Sample.analyzer (Some Sample.service) None Sample.job [] in
  target_functions "" = [] ∧
  run.1 = Ok (TaskResult Sample.repo "- a.py (why)" "" "f: 1-2"
                "def test_f(): pass") ∧
  run.2 !! 2%nat = Some (rq "LINE").
Proof. repeat split. Qed.

(** C9. Without a client, [get_llm_response] raises the ValueError
    "OpenAI API key not provided" and sends nothing; so a run of
    [process_task] sends no request at all and does not return a result,
    and once its first prompt is built it ends with that very error. A
    missing or empty key leaves the generator without client. *)
Theorem get_llm_response_without_client :
  (∀ prompt model log,
     get_llm_response None prompt model log =
       (Raise (ValueError "OpenAI API key not provided"), log))
  ∧ (∀ an token task log r log',
       process_task an None token task log = (r, log') →
       log' = log ∧ is_ok r = false)
  ∧ (∀ an token task log info owner name fp,
       derive_repo_info an task = Ok info →
       info !! "repo_owner" = Some owner →
       info !! "repo_name" = Some name →
       file_level_localization an owner name
         (get task "issue_description") (get task "model_patch") token
         = Ok fp →
       process_task an None token task log =
         (Raise (ValueError "OpenAI API key not provided"), log))
  ∧ (∀ svc, init_client None svc = None ∧ init_client (Some "") svc = None).
Proof.
  repeat split.
  - unfold process_task, mbind, M_bind, lift, get_llm_response, getitem in H.
    repeat (match type of H with
            | context [match ?x with _ => _ end] => destruct x
            end; simpl in H; try congruence).
  - unfold process_task, mbind, M_bind, lift, get_llm_response, getitem in H.
    repeat (match type of H with
            | context [match ?x with _ => _ end] => destruct x
            end; simpl in H; try (by simplify_eq)).
  - intros an token task log info owner name fp Hinfo Ho Hn Hfp.
    unfold process_task, mbind, M_bind, lift, get_llm_response, getitem.
    by rewrite Hinfo, Ho, Hn, Hfp.
Qed.

Lemma get_llm_response_without_client_witness :
  process_task Sample.analyzer None None Sample.job [] =
    (Raise (ValueError "OpenAI API key not provided"), []).
Proof.
  apply (proj1 (proj2 (proj2 get_llm_response_without_client))
           Sample.analyzer None Sample.job [] Sample.repo "sympy" "sympy"
           "FILE");
    reflexivity.
Defined.

End Pipeline.

(** * Further properties *)

(** ** Lines of a text *)

Section Lines.
Import Outline.

Lemma readlines_nil (s : string) : Py.readlines s = [] ↔ s = "".
Proof.
  destruct s as [|c s]; [done|]. simpl.
  destruct (Py.ascii_eqb c Py.LF); [done|]. by destruct (Py.readlines s).
Qed.

Lemma readlines_cons_char (c : ascii) (s : string) :
  Py.ascii_eqb c Py.LF = false → s ≠ "" →
  ∃ l ls, Py.readlines s = l :: ls ∧
          Py.readlines (String c s) = String c l :: ls.
Proof.
  intros Hc Hs. simpl. rewrite Hc.
  destruct (Py.readlines s) as [|l ls] eqn:E.
  - by apply readlines_nil in E.
  - by exists l, ls.
Qed.

(** Reading the lines of a text that continues after a line feed. *)
Lemma readlines_app_nl (a b : string) :
  Py.readlines ((a +:+ Py.NL) +:+ b) = Py.readlines (a +:+ Py.NL) ++ Py.readlines b.
Proof.
  induction a as [|c a IH]; [done|].
  - rewrite !app_cons. simpl. destruct (Py.ascii_eqb c Py.LF).
    + by rewrite IH.
    + rewrite IH. destruct (Py.readlines (a +:+ Py.NL)) as [|l ls] eqn:E; [|done].
      apply readlines_nil in E. by destruct a.
Qed.

Lemma readlines_app (a b : string) :
  closed a → Py.readlines (a +:+ b) = Py.readlines a ++ Py.readlines b.
Proof.
  intros [->|[a' ->]]; [done|]. apply readlines_app_nl.
Qed.

(** Joining the lines gives the text back. *)
Lemma concat_readlines (s : string) : Py.concat (Py.readlines s) = s.
Proof.
  induction s as [|c s IH]; [done|]. simpl.
  destruct (Py.ascii_eqb c Py.LF) eqn:E.
  - apply ascii_eqb_eq in E as ->. simpl. by rewrite IH.
  - destruct (Py.readlines s) as [|l ls] eqn:El.
    + apply readlines_nil in El as ->. done.
    + simpl in *. by rewrite app_cons, IH.
Qed.

End Lines.

(** ** The outline of a file *)

Section OutlineFacts.
Import CodebaseAnalyzer Outline.

Lemma mem_app (c : ascii) (a b : string) :
  Py.mem c (a +:+ b) = Py.mem c a || Py.mem c b.
Proof.
  induction a as [|x a IH]; [done|].
  rewrite app_cons. simpl. by rewrite IH, orb_assoc.
Qed.

Lemma readlines_wf (s : string) : Forall line_wf (Py.readlines s).
Proof.
  induction s as [|c s IH]; [constructor|]. simpl.
  destruct (Py.ascii_eqb c Py.LF) eqn:E.
  - constructor; [|done]. split; [done|]. exists "". split; [done|]. by right.
  - assert (one_line (String c "")) as Hc.
    { unfold one_line. simpl. unfold Py.ascii_eqb in *.
      rewrite orb_false_r. apply bool_decide_eq_false.
      apply bool_decide_eq_false in E. congruence. }
    destruct (Py.readlines s) as [|l ls].
    + constructor; [|done]. split; [done|]. exists (String c ""). eauto.
    + inversion IH as [|? ? [_ (body & Hb & Hl)] Hls]; subst.
      constructor; [|done]. split; [done|]. exists (String c body). split.
      * unfold one_line in *. simpl. simpl in Hc. rewrite orb_false_r in Hc.
        by rewrite Hc, Hb.
      * destruct Hl as [->| ->]; [by left|by right].
Qed.

(** The loop appends to [compressed] what [emit] gives for the line, whatever
    the two flags are. *)
Lemma scan_line_emit (st : scan) (line : string) :
  compressed (scan_line st line) = compressed st ++ emit line.
Proof.
  unfold scan_line, emit.
  destruct (decorator_match line); [done|].
  destruct (class_match line); [done|].
  destruct (func_match line); [done|].
  rewrite app_nil_r. repeat case_match; done.
Qed.

Lemma scan_lines_emit (st : scan) (lines : list string) :
  compressed (foldl scan_line st lines) = compressed st ++ lines ≫= emit.
Proof.
  revert st. induction lines as [|l lines IH]; intros st; simpl.
  - by rewrite app_nil_r.
  - by rewrite IH, scan_line_emit, app_assoc.
Qed.

Lemma compress_emit (text : string) :
  compress text = Py.readlines text ≫= emit.
Proof. unfold compress, scan_lines. by rewrite scan_lines_emit. Qed.

(** X1. The outline of two texts put one after the other, the first of
    which is empty or ends with a line feed, is the outline of the first
    followed by the outline of the second: what a line contributes never
    depends on the lines before it. *)
Theorem compress_app (t1 t2 : string) :
  closed t1 → compress (t1 +:+ t2) = compress t1 ++ compress t2.
Proof.
  intros H. rewrite !compress_emit, readlines_app by done. apply bind_app.
Qed.

Lemma compress_app_witness :
  compress (("class A:" +:+ Py.NL) +:+ ("    x = 1" +:+ Py.NL +:+ "def f():"))
  = ["class A:"] ++ ["def f():"].
Proof.
  apply (compress_app ("class A:" +:+ Py.NL)
           ("    x = 1" +:+ Py.NL +:+ "def f():")).
  right. by exists "class A:".
Defined.

(** *** Facts about the string primitives *)

Lemma all_chars_app (p : ascii → bool) (a b : string) :
  all_chars p (a +:+ b) = all_chars p a && all_chars p b.
Proof.
  induction a as [|c a IH]; [done|].
  rewrite app_cons. simpl. by rewrite IH, andb_assoc.
Qed.

Lemma all_chars_not_mem (p : ascii → bool) (c : ascii) (s : string) :
  all_chars p s = true → p c = false → Py.mem c s = false.
Proof.
  intros Hs Hc. induction s as [|d s IH]; [done|]. simpl in *.
  apply andb_true_iff in Hs as [Hd Hs]. rewrite (IH Hs), orb_false_r.
  unfold Py.ascii_eqb. apply bool_decide_eq_false. intros ->. congruence.
Qed.

Lemma rstrip_all (p : ascii → bool) (r : string) :
  all_chars p r = true → Py.rstrip_by p r = "".
Proof.
  induction r as [|c r IH]; [done|]. simpl.
  intros [Hc Hr]%andb_true_iff. by rewrite (IH Hr), Hc.
Qed.

Lemma rstrip_app_spaces (p : ascii → bool) (s r : string) :
  all_chars p r = true → Py.rstrip_by p (s +:+ r) = Py.rstrip_by p s.
Proof.
  intros Hr. induction s as [|c s IH].
  - by rewrite app_empty_l, rstrip_all.
  - rewrite app_cons. simpl. by rewrite IH.
Qed.

Lemma rstrip_idem (p : ascii → bool) (s : string) :
  Py.rstrip_by p (Py.rstrip_by p s) = Py.rstrip_by p s.
Proof.
  induction s as [|c s IH]; [done|]. simpl.
  destruct (p c && Py.is_empty (Py.rstrip_by p s)) eqn:E; [done|].
  simpl. by rewrite IH, E.
Qed.

Lemma rstrip_not_mem (p : ascii → bool) (c : ascii) (s : string) :
  Py.mem c s = false → Py.mem c (Py.rstrip_by p s) = false.
Proof.
  induction s as [|d s IH]; [done|]. simpl.
  intros [Hd Hs]%orb_false_elim.
  destruct (p d && _); [done|]. simpl. by rewrite Hd, IH.
Qed.

Lemma isword_not_space (c : ascii) : Py.isword c = true → Py.isspace c = false.
Proof. destruct c as [[] [] [] [] [] [] [] []]; done. Qed.

Lemma strip_prefix_app_l (p x : string) : strip_prefix p (p +:+ x) = Some x.
Proof.
  induction p as [|c p IH]; [by destruct x|].
  rewrite app_cons. simpl. by rewrite ascii_eqb_refl.
Qed.

Lemma span_spec (p : ascii → bool) (s a b : string) :
  span p s = (a, b) → all_chars p a = true ∧ head_not p b.
Proof.
  revert a b. induction s as [|c s IH]; intros a b; simpl.
  - by intros [= <- <-].
  - destruct (p c) eqn:Hc.
    + destruct (span p s) as [a' b'] eqn:E. intros [= <- <-].
      destruct (IH a' b' eq_refl) as [Ha Hb]. simpl. by rewrite Hc, Ha.
    + by intros [= <- <-].
Qed.

Lemma span_exact (p : ascii → bool) (a b : string) :
  all_chars p a = true → head_not p b → span p (a +:+ b) = (a, b).
Proof.
  intros Ha Hb. induction a as [|c a IH].
  - rewrite app_empty_l. destruct b as [|d b]; [done|]. simpl in *.
    by rewrite Hb.
  - rewrite app_cons. simpl in *. apply andb_true_iff in Ha as [Hc Ha].
    by rewrite Hc, (IH Ha).
Qed.

Lemma upto_colon_spec (s t : string) :
  upto_colon s = Some t →
  one_line t ∧ t ≠ "" ∧ (∀ p, head_not p s → head_not p t) ∧
  ∀ rest, upto_colon (t +:+ rest) = Some t.
Proof.
  revert t. induction s as [|c s IH]; intros t; simpl; [done|].
  destruct (Py.ascii_eqb c ":") eqn:E1.
  { intros [= <-]. apply ascii_eqb_eq in E1 as ->.
    split; [done|]. split; [done|]. split; [done|]. intros rest.
    by rewrite app_cons. }
  destruct (Py.ascii_eqb c Py.LF) eqn:E2; [done|].
  destruct (upto_colon s) as [t'|]; [|done]. intros [= <-].
  destruct (IH t' eq_refl) as (H1 & _ & _ & H4). repeat split; [|done..|].
  - unfold one_line in *. simpl. rewrite H1, orb_false_r.
    unfold Py.ascii_eqb in *. apply bool_decide_eq_false.
    apply bool_decide_eq_false in E2. congruence.
  - intros rest. rewrite app_cons. simpl. by rewrite E1, E2, H4.
Qed.

(** The parts of the text a header pattern captures. *)
Lemma header_match_parts (kw line g : string) :
  header_match kw line = Some g →
  ∃ blanks name tail rest,
    g = kw +:+ blanks +:+ name +:+ tail ∧
    line = kw +:+ blanks +:+ name +:+ tail +:+ rest ∧
    blanks ≠ "" ∧ name ≠ "" ∧
    all_chars Py.isspace blanks = true ∧ all_chars Py.isword name = true ∧
    one_line tail ∧ head_not Py.isword tail ∧
    ∀ rest', upto_colon (tail +:+ rest') = Some tail.
Proof.
  unfold header_match.
  destruct (strip_prefix kw line) as [r0|] eqn:E0; [|done].
  apply strip_prefix_app in E0 as ->.
  destruct (span Py.isspace r0) as [blanks r1] eqn:E1.
  destruct (span Py.isword r1) as [name r2] eqn:E2.
  destruct (span_spec _ _ _ _ E1) as [Hb _].
  destruct (span_spec _ _ _ _ E2) as [Hn Hr2].
  apply span_app in E1 as ->. apply span_app in E2 as ->.
  destruct (Py.is_empty blanks) eqn:Eb; [done|].
  destruct (Py.is_empty name) eqn:En; [done|]. simpl.
  destruct (upto_colon r2) as [tail|] eqn:E3; [|done]. intros [= <-].
  destruct (upto_colon_spec _ _ E3) as (Ht1 & _ & Ht3 & Ht4).
  destruct (upto_colon_app _ _ E3) as [rest ->].
  exists blanks, name, tail, rest. repeat split; try done.
  - by destruct blanks.
  - by destruct name.
  - by apply Ht3.
Qed.

Lemma header_match_stable (kw line g rest : string) :
  header_match kw line = Some g → header_match kw (g +:+ rest) = Some g.
Proof.
  intros (blanks & name & tail & rest0 & -> & _ & Hb & Hn & Hab & Han & _ &
          Hhead & Hup)%header_match_parts.
  unfold header_match.
  rewrite !app_assoc_s, strip_prefix_app_l.
  rewrite (span_exact Py.isspace blanks).
  - rewrite (span_exact Py.isword name); [|done|].
    + destruct blanks; [congruence|]. destruct name; [congruence|]. simpl.
      by rewrite Hup.
    + destruct tail; [by specialize (Hup "")|done].
  - done.
  - destruct name as [|c name]; [done|]. rewrite app_cons. simpl in *.
    apply andb_true_iff in Han as [Hc _]. by apply isword_not_space.
Qed.

Lemma app_snoc_inv (a x body : string) (c : ascii) :
  a +:+ x = body +:+ String c "" → x ≠ "" →
  ∃ x', x = x' +:+ String c "" ∧ a +:+ x' = body.
Proof.
  revert body. induction a as [|d a IH]; intros body H Hx.
  - rewrite app_empty_l in H. subst x. by exists body.
  - rewrite app_cons in H. destruct body as [|e body].
    + rewrite app_empty_l in H. injection H as -> H.
      destruct a; [by destruct x|done].
    + rewrite app_cons in H. injection H as -> H.
      destruct (IH body H Hx) as (x' & -> & <-). by exists x'.
Qed.

(** In a line, a line feed is the last character or is not there. *)
Lemma line_wf_prefix (a x : string) :
  line_wf (a +:+ x) → x ≠ "" → one_line a.
Proof.
  intros [_ (body & Hb & [H|H])] Hx; unfold one_line in *.
  - rewrite <- H, mem_app in Hb. by apply orb_false_elim in Hb as [? _].
  - destruct (app_snoc_inv a x body _ H Hx) as (x' & -> & <-).
    rewrite mem_app in Hb. by apply orb_false_elim in Hb as [? _].
Qed.

Lemma ascii_eqb_sym (a b : ascii) : Py.ascii_eqb a b = Py.ascii_eqb b a.
Proof.
  unfold Py.ascii_eqb. apply bool_decide_ext. split; congruence.
Qed.

Lemma rstrip_line_one_line (l : string) :
  line_wf l → one_line (Py.rstrip_by Py.isspace l).
Proof.
  intros [_ (body & Hb & [->| ->])].
  - by apply rstrip_not_mem.
  - rewrite rstrip_app_spaces by done. by apply rstrip_not_mem.
Qed.

(** *** What one line contributes *)

(** An entry of the outline has no line feed, is not empty, and is what the
    loop emits again when it reads the entry followed by blanks. *)
Lemma emit_entry (l h : string) :
  line_wf l → h ∈ emit l →
  one_line h ∧ h ≠ "" ∧
  ∀ rest, all_chars Py.isspace rest = true → emit (h +:+ rest) = [h].
Proof.
  intros Hwf. unfold emit at 1.
  destruct (decorator_match l) eqn:Hdec.
  - intros ->%list_elem_of_singleton.
    destruct l as [|a [|b r]]; try done. simpl in Hdec.
    apply andb_true_iff in Hdec as [Ha%ascii_eqb_eq Hw]. subst a.
    pose proof (isword_not_space b Hw) as Hsp.
    pose proof (rstrip_line_one_line _ Hwf) as Hone.
    assert (Py.strip (String "@" (String b r)) =
            String "@" (String b (Py.rstrip_by Py.isspace r))) as Hs.
    { unfold Py.strip, Py.strip_by. simpl. by rewrite Hsp. }
    assert (Py.rstrip_by Py.isspace (String "@" (String b r)) =
            String "@" (String b (Py.rstrip_by Py.isspace r))) as Hr.
    { simpl. by rewrite Hsp. }
    rewrite Hs. rewrite Hr in Hone. split; [done|]. split; [done|].
    intros rest Hrest. unfold emit. rewrite !app_cons. simpl. rewrite Hw.
    simpl. f_equal. unfold Py.strip, Py.strip_by. simpl Py.lstrip_by.
    rewrite <- !app_cons, rstrip_app_spaces by done.
    by rewrite <- Hr, rstrip_idem.
  - assert (∀ kw g, header_match kw l = Some g → kw ≠ "" → one_line kw →
              one_line g ∧ g ≠ "") as Hhdr.
    { intros kw g Hg Hkw Hkw1.
      destruct (header_match_parts _ _ _ Hg)
        as (blanks & name & tail & rest & -> & Hl & _ & Hn & _ & Han & Ht & _).
      split; [|by destruct kw].
      assert (one_line (kw +:+ blanks)) as Hkb.
      { apply (line_wf_prefix _ (name +:+ tail +:+ rest)).
        - by rewrite app_assoc_s, <- Hl.
        - by destruct name. }
      unfold one_line in *. rewrite mem_app in Hkb.
      apply orb_false_elim in Hkb as [_ Hbl].
      rewrite !mem_app, Hkw1, Hbl, Ht.
      by rewrite (all_chars_not_mem Py.isword Py.LF name Han). }
    unfold class_match, func_match in *.
    destruct (header_match "class" l) as [g|] eqn:Hc.
    + intros ->%list_elem_of_singleton.
      destruct (Hhdr "class" g Hc) as [H1 H2]; [done..|].
      split; [done|]. split; [done|]. intros rest _. unfold emit, class_match.
      rewrite (header_match_stable "class" l g rest Hc).
      destruct (header_match_parts _ _ _ Hc) as (? & ? & ? & ? & -> & _).
      done.
    + destruct (header_match "def" l) as [g|] eqn:Hf; [|by intros ?%elem_of_nil].
      intros ->%list_elem_of_singleton.
      destruct (Hhdr "def" g Hf) as [H1 H2]; [done..|].
      split; [done|]. split; [done|]. intros rest _. unfold emit, func_match.
      rewrite (header_match_stable "def" l g rest Hf).
      destruct (header_match_parts _ _ _ Hf) as (? & ? & ? & ? & -> & _).
      done.
Qed.

Lemma compress_entry (text h : string) :
  h ∈ compress text →
  one_line h ∧ h ≠ "" ∧
  ∀ rest, all_chars Py.isspace rest = true → emit (h +:+ rest) = [h].
Proof.
  rewrite compress_emit. intros (l & Hh & Hl)%list_elem_of_bind.
  apply (emit_entry l h); [|done].
  pose proof (readlines_wf text) as Hwf. rewrite Forall_forall in Hwf. eauto.
Qed.

Lemma split_one_line (s : string) : one_line s → Py.split Py.LF s = [s].
Proof.
  unfold one_line. induction s as [|c s IH]; [done|]. simpl.
  intros [Hc Hs]%orb_false_elim. rewrite ascii_eqb_sym, Hc. by rewrite IH.
Qed.

Lemma split_join (xs : list string) :
  Forall one_line xs → xs ≠ [] → Py.split Py.LF (Py.join Py.NL xs) = xs.
Proof.
  induction 1 as [|x xs Hx Hxs IH]; [done|]. intros _.
  destruct xs as [|y xs]; [by apply split_one_line|].
  change (Py.join Py.NL (x :: y :: xs))
    with (x +:+ String Py.LF (Py.join Py.NL (y :: xs))).
  by rewrite split_app, split_one_line, IH.
Qed.

Lemma readlines_one_line (x : string) :
  one_line x →
  Py.readlines (x +:+ Py.NL) = [x +:+ Py.NL] ∧
  (x ≠ "" → Py.readlines x = [x]).
Proof.
  unfold one_line. induction x as [|c x IH]; [done|]. simpl.
  intros [Hc Hx]%orb_false_elim. rewrite ascii_eqb_sym in Hc.
  destruct (IH Hx) as [IH1 IH2]. rewrite app_cons. simpl. rewrite Hc, IH1.
  split; [done|]. intros _. destruct x as [|d x]; [done|].
  by rewrite IH2.
Qed.

(** X2. No entry of an outline is empty or holds a line feed; so the text
    that goes into the prompt, the entries joined by line feeds, has one line
    per entry, and splitting it at the line feeds gives the outline back. *)
Theorem compress_entries (text : string) :
  Forall (λ h, one_line h ∧ h ≠ "") (compress text) ∧
  (compress text ≠ [] →
   Py.split Py.LF (Py.join Py.NL (compress text)) = compress text).
Proof.
  assert (Forall (λ h, one_line h ∧ h ≠ "") (compress text)) as H.
  { apply Forall_forall. intros h Hh.
    destruct (compress_entry text h Hh) as (? & ? & _). done. }
  split; [done|]. apply split_join.
  eapply Forall_impl; [exact H|]. by intros h [? _].
Qed.

Lemma compress_entries_witness :
  Py.split Py.LF (Py.join Py.NL (compress Sample.module_text))
  = compress Sample.module_text.
Proof.
  apply (proj2 (compress_entries Sample.module_text)). discriminate.
Defined.

(** X3. Compressing the text of an outline gives the outline again: every
    entry is itself a line that the loop recognises and emits unchanged. *)
Theorem compress_outline_idempotent (text : string) :
  compress (Py.join Py.NL (compress text)) = compress text.
Proof.
  assert (∀ xs, (∀ h, h ∈ xs → h ∈ compress text) →
            compress (Py.join Py.NL xs) = xs) as H.
  { induction xs as [|x xs IH]; intros Hxs; [done|].
    destruct (compress_entry text x) as (Hx1 & Hx2 & Hx3); [apply Hxs; by left|].
    destruct (readlines_one_line x Hx1) as [Hr1 Hr2].
    destruct xs as [|y xs].
    - simpl. rewrite compress_emit, Hr2 by done. simpl.
      rewrite app_nil_r. rewrite <- (app_empty_r x) at 1. by apply Hx3.
    - change (Py.join Py.NL (x :: y :: xs))
        with (x +:+ Py.NL +:+ Py.join Py.NL (y :: xs)).
      rewrite <- app_assoc_s, compress_app by (right; by exists x).
      rewrite IH by (intros h Hh; apply Hxs; by right).
      rewrite compress_emit, Hr1. simpl. rewrite app_nil_r.
      by rewrite Hx3. }
  by apply H.
Qed.

End OutlineFacts.

(** ** The dict of compressed files *)

Section CompressedFiles.
Import CodebaseAnalyzer.

Lemma dict_set_keys (d : list (string * string)) (k v : string) (f : string) :
  f ∈ (dict_set d k v).*1 ↔ f = k ∨ f ∈ d.*1.
Proof.
  induction d as [|[k' v'] d IH]; simpl.
  - rewrite list_elem_of_singleton, elem_of_nil. tauto.
  - case_bool_decide; simpl; rewrite !elem_of_cons; [subst; tauto|].
    rewrite IH. tauto.
Qed.

Lemma dict_set_entries (d : list (string * string)) (k v f w : string) :
  (f, w) ∈ dict_set d k v → (f = k ∧ w = v) ∨ (f, w) ∈ d.
Proof.
  induction d as [|[k' v'] d IH]; simpl.
  - intros [= -> ->]%list_elem_of_singleton. by left.
  - case_bool_decide; rewrite !elem_of_cons.
    + intros [[= -> ->]|?]; [by left|right; by right].
    + intros [?|[?|?]%IH]; [right; by left|by left|right; by right].
Qed.

Lemma dict_set_NoDup (d : list (string * string)) (k v : string) :
  NoDup d.*1 → NoDup (dict_set d k v).*1.
Proof.
  induction d as [|[k' v'] d IH]; simpl.
  - intros _. apply NoDup_singleton.
  - rewrite NoDup_cons. intros [Hk' Hd].
    case_bool_decide; simpl; rewrite NoDup_cons; [by subst|].
    split; [|by apply IH]. rewrite dict_set_keys. intros [?|?]; [congruence|done].
Qed.

(** X4. A candidate whose path does not exist in the repository leaves no
    trace: the step gives what it gives for the candidates that exist. *)
Theorem compressed_files_skips_missing (σ : Fs.fs) (repo_path : string)
    (top_files : list string) (acc : list (string * string)) :
  compressed_files σ repo_path top_files acc =
  compressed_files σ repo_path
    (filter (λ f, Fs.exists_ σ (joinpath repo_path f) = true) top_files) acc.
Proof.
  revert acc. induction top_files as [|f top IH]; intros acc; [done|].
  destruct (Fs.exists_ σ (joinpath repo_path f)) eqn:E.
  - rewrite filter_cons_True by done. simpl. rewrite E. simpl.
    destruct (Fs.read σ (joinpath repo_path f)); simpl; [apply IH|done].
  - rewrite filter_cons_False by congruence. simpl. rewrite E. apply IH.
Qed.

(** X5. The step raises exactly when some candidate exists and cannot be
    read as a file, because it is a directory or is not readable; when it
    raises, the exception is that of the first such candidate. *)
Theorem compressed_files_raises (σ : Fs.fs) (repo_path : string)
    (top_files : list string) (acc : list (string * string)) :
  match compressed_files σ repo_path top_files acc with
  | Ok _ =>
      ∀ f, f ∈ top_files → Fs.exists_ σ (joinpath repo_path f) = true →
           is_ok (Fs.read σ (joinpath repo_path f)) = true
  | Raise e =>
      ∃ before f after,
        top_files = before ++ f :: after ∧
        Fs.read σ (joinpath repo_path f) = Raise e ∧
        Fs.exists_ σ (joinpath repo_path f) = true ∧
        ∀ g, g ∈ before → Fs.exists_ σ (joinpath repo_path g) = true →
             is_ok (Fs.read σ (joinpath repo_path g)) = true
  end.
Proof.
  revert acc. induction top_files as [|f top IH]; intros acc; simpl.
  - intros f Hf. by apply elem_of_nil in Hf.
  - destruct (Fs.exists_ σ (joinpath repo_path f)) eqn:E; simpl.
    + destruct (Fs.read σ (joinpath repo_path f)) as [text|e] eqn:R; simpl.
      * specialize (IH (dict_set acc f (Py.join Py.NL (compress text)))).
        destruct (compressed_files σ repo_path top _) as [d|e].
        -- intros g [->|Hg]%elem_of_cons Hex; [by rewrite R|by apply IH].
        -- destruct IH as (before & g & after & -> & Hr & Hex & Hb).
           exists (f :: before), g, after. repeat split; [done..|].
           intros h [->|Hh]%elem_of_cons Hh'; [by rewrite R|by apply Hb].
      * exists [], f, top. repeat split; [done..|].
        intros g Hg. by apply elem_of_nil in Hg.
    + specialize (IH acc).
      destruct (compressed_files σ repo_path top acc) as [d|e].
      * intros g [->|Hg]%elem_of_cons Hex; [congruence|by apply IH].
      * destruct IH as (before & g & after & -> & Hr & Hex & Hb).
        exists (f :: before), g, after. repeat split; [done..|].
        intros h [->|Hh]%elem_of_cons Hh'; [congruence|by apply Hb].
Qed.

Lemma compressed_files_inv (σ : Fs.fs) (repo_path : string)
    (top_files : list string) (acc d : list (string * string)) :
  compressed_files σ repo_path top_files acc = Ok d →
  (NoDup acc.*1 → NoDup d.*1) ∧
  (∀ f, f ∈ d.*1 ↔
        f ∈ acc.*1 ∨
        (f ∈ top_files ∧ Fs.exists_ σ (joinpath repo_path f) = true)) ∧
  (∀ f v, (f, v) ∈ d →
          (f, v) ∈ acc ∨
          ∃ text, Fs.read σ (joinpath repo_path f) = Ok text ∧
                  v = Py.join Py.NL (compress text)).
Proof.
  revert acc. induction top_files as [|f top IH]; intros acc; simpl.
  - intros [= <-]. split; [done|]. split; [|by left].
    intros f. rewrite elem_of_nil. tauto.
  - destruct (Fs.exists_ σ (joinpath repo_path f)) eqn:E; simpl.
    + destruct (Fs.read σ (joinpath repo_path f)) as [text|e] eqn:R; [|done].
      simpl. intros (H1 & H2 & H3)%IH. split; [|split].
      * intros Hacc. by apply H1, dict_set_NoDup.
      * intros g. rewrite H2, dict_set_keys, elem_of_cons. split.
        -- intros [[->|?]|[? ?]]; [right; eauto|by left|right; eauto].
        -- intros [?|[[->|?] ?]]; [left; by right|left; by left|right; eauto].
      * intros g v [Hgv|Hgv]%H3; [|by right].
        apply dict_set_entries in Hgv as [[-> ->]|Hgv]; [|by left].
        right. by exists text.
    + intros (H1 & H2 & H3)%IH. split; [done|]. split; [|done].
      intros g. rewrite H2, elem_of_cons. split.
      * intros [?|[? ?]]; [by left|right; eauto].
      * intros [?|[[->|?] ?]]; [by left|congruence|right; eauto].
Qed.

(** X6. When the step returns, the dict has one entry for each candidate
    that exists, and no other; no path occurs twice; and the value of a path
    is the outline of the text of its file, the entries joined by line
    feeds. *)
Theorem compressed_files_content (σ : Fs.fs) (repo_path : string)
    (top_files : list string) (d : list (string * string)) :
  compressed_files σ repo_path top_files [] = Ok d →
  NoDup d.*1 ∧
  (∀ f, f ∈ d.*1 ↔
        f ∈ top_files ∧ Fs.exists_ σ (joinpath repo_path f) = true) ∧
  (∀ f v, (f, v) ∈ d →
          ∃ text, Fs.read σ (joinpath repo_path f) = Ok text ∧
                  v = Py.join Py.NL (compress text)).
Proof.
  intros (H1 & H2 & H3)%compressed_files_inv. split; [|split].
  - apply H1. constructor.
  - intros f. rewrite H2. simpl. rewrite elem_of_nil. tauto.
  - intros f v [Hf|Hf]%H3; [by apply elem_of_nil in Hf|done].
Qed.

Lemma compressed_files_content_witness :
  NoDup [("a.py", "class Foo(Base):")].*1.
Proof.
  apply (compressed_files_content Sample.repo_fs "repo"
           ["a.py"; "missing.py"; "a.py"] [("a.py", "class Foo(Base):")]).
  vm_compute. reflexivity.
Defined.

Lemma compressed_files_raises_witness :
  ∃ before f after,
    ["a.py"; "pkg"; "a.py"] = before ++ f :: after ∧
    Fs.read Sample.repo_fs (joinpath "repo" f)
      = Raise (IsADirectoryError "repo/pkg") ∧
    Fs.exists_ Sample.repo_fs (joinpath "repo" f) = true ∧
    ∀ g, g ∈ before → Fs.exists_ Sample.repo_fs (joinpath "repo" g) = true →
         is_ok (Fs.read Sample.repo_fs (joinpath "repo" g)) = true.
Proof.
  exact (compressed_files_raises Sample.repo_fs "repo"
           ["a.py"; "pkg"; "a.py"] []).
Defined.

End CompressedFiles.

(** ** Numbered code and windows of whole lines *)

Section WholeLines.
Import CodebaseAnalyzer TestGenerator Outline.

Lemma readlines_line_wf (l : string) : line_wf l → Py.readlines l = [l].
Proof.
  intros [Hne (body & Hb & Hl)].
  destruct (readlines_one_line body Hb) as [H1 H2].
  destruct Hl as [->| ->]; [by apply H2|done].
Qed.

(** Reading the lines of the joined lines gives the lines back. *)
Lemma readlines_concat (ls : list string) :
  lines_ok ls → Py.readlines (Py.concat ls) = ls.
Proof.
  induction ls as [|l ls IH]; [done|]. destruct ls as [|l2 ls].
  - simpl. rewrite app_empty_r. apply readlines_line_wf.
  - intros [(body & Hb & ->) Hok].
    change (Py.concat ((body +:+ Py.NL) :: l2 :: ls))
      with ((body +:+ Py.NL) +:+ Py.concat (l2 :: ls)).
    rewrite readlines_app_nl, IH by done.
    by destruct (readlines_one_line body Hb) as [-> _].
Qed.

Lemma lines_ok_cons_inv (l : string) (ls : list string) :
  lines_ok (l :: ls) → line_wf l ∧ lines_ok ls.
Proof.
  destruct ls as [|l2 ls]; [done|]. intros [(body & Hb & ->) Hok].
  split; [|done]. split; [by destruct body|]. exists body. auto.
Qed.

Lemma readlines_lines_ok (s : string) : lines_ok (Py.readlines s).
Proof.
  induction s as [|c s IH]; [done|]. simpl.
  destruct (Py.ascii_eqb c Py.LF) eqn:E.
  - destruct (Py.readlines s) as [|l ls] eqn:El.
    + split; [done|]. exists "". split; [done|]. by right.
    + split; [|done]. by exists "".
  - assert (Py.mem Py.LF (String c "") = false) as Hc.
    { simpl. by rewrite ascii_eqb_sym, E. }
    destruct (Py.readlines s) as [|l ls] eqn:El.
    + split; [done|]. exists (String c ""). split; [done|]. by left.
    + destruct ls as [|l2 ls].
      * destruct IH as [_ (body & Hb & Hl)]. split; [done|].
        exists (String c body). split.
        -- unfold one_line in *. simpl in *. rewrite orb_false_r in Hc.
           by rewrite Hc, Hb.
        -- destruct Hl as [->| ->]; [by left|by right].
      * destruct IH as [(body & Hb & ->) Hok]. split; [|done].
        exists (String c body). split; [|done].
        unfold one_line in *. simpl in *. rewrite orb_false_r in Hc.
        by rewrite Hc, Hb.
Qed.

Lemma lines_ok_take (n : nat) (ls : list string) :
  lines_ok ls → lines_ok (take n ls).
Proof.
  revert n. induction ls as [|l ls IH]; intros n Hok; [by destruct n|].
  destruct n as [|n]; [done|].
  destruct (lines_ok_cons_inv _ _ Hok) as [Hl Hls]. specialize (IH n Hls).
  simpl. destruct ls as [|l2 ls]; [by destruct n|].
  destruct n as [|n]; [done|]. destruct Hok as [Hb _]. by split.
Qed.

Lemma lines_ok_drop (n : nat) (ls : list string) :
  lines_ok ls → lines_ok (drop n ls).
Proof.
  revert n. induction ls as [|l ls IH]; intros n Hok; [by destruct n|].
  destruct n as [|n]; [done|]. simpl. apply IH.
  by destruct (lines_ok_cons_inv _ _ Hok).
Qed.

Lemma lines_ok_prefix (pre : nat → string) (ls : list string) :
  (∀ i, one_line (pre i)) → lines_ok ls →
  lines_ok (imap (λ i l, pre i +:+ l) ls).
Proof.
  revert pre. induction ls as [|l ls IH]; intros pre Hpre Hok; [done|].
  assert (∀ body, one_line body → one_line (pre 0%nat +:+ body)) as Hone.
  { intros body Hb. unfold one_line in *. by rewrite mem_app, Hpre, Hb. }
  destruct ls as [|l2 ls].
  - destruct Hok as [Hne (body & Hb & Hl)]. split.
    + destruct (pre 0%nat); [done|by rewrite app_cons].
    + exists (pre 0%nat +:+ body). split; [by apply Hone|].
      destruct Hl as [->| ->]; [by left|right; by rewrite app_assoc_s].
  - destruct Hok as [(body & Hb & ->) Hok].
    specialize (IH (pre ∘ S) (λ i, Hpre (S i)) Hok). split; [|exact IH].
    exists (pre 0%nat +:+ body). split; [by apply Hone|].
    by rewrite app_assoc_s.
Qed.

Lemma string_of_uint_one_line (d : Decimal.uint) :
  one_line (NilZero.string_of_uint d).
Proof.
  assert (∀ d, one_line (NilEmpty.string_of_uint d)) as H.
  { induction d0 as [|d0 IH|d0 IH|d0 IH|d0 IH|d0 IH|d0 IH|d0 IH|d0 IH|d0 IH
                     |d0 IH]; try done;
      unfold one_line in *; simpl; exact IH. }
  destruct d; try done; apply (H (_ d)).
Qed.

(** X7. The numbered code of a file has the lines of the file, in their
    order and as many: line [i] (from 0) is the number [i + 1], a colon, a
    space and the line of the file. The call raises what opening the file
    raises. *)
Theorem get_code_with_lines_numbering (σ : Fs.fs) (file_path : string) :
  match Fs.read σ file_path with
  | Ok text =>
      ∃ out, get_code_with_lines σ file_path = Ok out ∧
             Py.readlines out =
               imap (λ i line, str_of_nat (i + 1) +:+ ": " +:+ line)
                 (Py.readlines text)
  | Raise e => get_code_with_lines σ file_path = Raise e
  end.
Proof.
  unfold get_code_with_lines.
  destruct (Fs.read σ file_path) as [text|e]; [|done]. simpl.
  eexists. split; [done|].
  apply readlines_concat.
  rewrite (imap_ext _ (λ i l, (str_of_nat (i + 1) +:+ ": ") +:+ l))
    by (intros; by rewrite app_assoc_s).
  apply (lines_ok_prefix (λ i, str_of_nat (i + 1) +:+ ": ")).
  - intros i. unfold one_line, str_of_nat. rewrite mem_app.
    by rewrite (string_of_uint_one_line (Nat.to_uint (i + 1))).
  - apply readlines_lines_ok.
Qed.

(** X8. A window that reaches from the first line to the last returns the
    text of the file as it is. *)
Theorem get_context_window_whole_file (σ : Fs.fs) (file_path text : string)
    (wr : bool) (target_lines : Z * Z) (window_size : Z) :
  σ !! file_path = Some (Fs.File text true wr) →
  target_lines.1 - window_size ≤ 0 →
  Z.of_nat (length (Py.readlines text)) ≤ target_lines.2 + window_size →
  get_context_window σ file_path target_lines window_size = Ok text.
Proof.
  intros Hf Hs He. destruct target_lines as [s e]. simpl in *.
  rewrite (get_context_window_clamped σ file_path text wr s e) by (done || lia).
  unfold Notions.window. rewrite Z.max_l, Z.min_l by lia.
  rewrite Z.sub_0_r, Nat2Z.id. change (Z.to_nat 0) with 0%nat.
  rewrite drop_0, take_ge by done. by rewrite concat_readlines.
Qed.

Lemma get_context_window_whole_file_witness :
  get_context_window Sample.three_lines "f.py" (2, 2) 10
  = Ok ("a" +:+ Py.NL +:+ "b" +:+ Py.NL +:+ "c" +:+ Py.NL).
Proof.
  apply (get_context_window_whole_file Sample.three_lines "f.py" _ true
           (2, 2) 10).
  - reflexivity.
  - vm_compute. discriminate.
  - vm_compute. discriminate.
Defined.

(** X9. The text returned is made of whole lines of the file: reading its
    lines gives the slice of the lines of the file between the two clamped
    bounds, so no line is cut and no two lines are merged. *)
Theorem get_context_window_whole_lines (σ : Fs.fs) (file_path text : string)
    (wr : bool) (target_lines : Z * Z) (window_size : Z) :
  σ !! file_path = Some (Fs.File text true wr) →
  let lines := Py.readlines text in
  ∃ out, get_context_window σ file_path target_lines window_size = Ok out ∧
         Py.readlines out =
           py_slice lines (Z.max 0 (target_lines.1 - window_size))
             (Z.min (Z.of_nat (length lines))
                (target_lines.2 + window_size)).
Proof.
  intros Hf lines. unfold get_context_window, Fs.read. rewrite Hf. simpl.
  eexists. split; [done|]. apply readlines_concat.
  unfold py_slice. apply lines_ok_take, lines_ok_drop, readlines_lines_ok.
Qed.

Lemma get_context_window_whole_lines_witness :
  ∃ out, get_context_window Sample.three_lines "f.py" (1, 1) 1 = Ok out ∧
         Py.readlines out = ["a" +:+ Py.NL; "b" +:+ Py.NL].
Proof.
  exact (get_context_window_whole_lines Sample.three_lines "f.py"
           ("a" +:+ Py.NL +:+ "b" +:+ Py.NL +:+ "c" +:+ Py.NL) true
           (1, 1) 1 eq_refl).
Defined.

End WholeLines.

(** ** Identifiers and requests *)

Section Parsing.
Import ContextGenerator Outline Requests.

Lemma split_pieces (sep c : ascii) (s : string) :
  Py.mem c s = false → Forall (λ w, Py.mem c w = false) (Py.split sep s).
Proof.
  induction s as [|d s IH]; simpl.
  - intros _. by constructor.
  - intros [Hd Hs]%orb_false_elim. specialize (IH Hs).
    destruct (Py.ascii_eqb d sep); [by constructor|].
    destruct (Py.split sep s) as [|w ws]; [by repeat constructor; simpl; rewrite Hd|].
    inversion IH; subst. constructor; [|done]. simpl. by rewrite Hd.
Qed.

Lemma split_no_sep (sep : ascii) (s : string) :
  Forall (λ w, Py.mem sep w = false) (Py.split sep s).
Proof.
  induction s as [|d s IH]; simpl; [by constructor|].
  destruct (Py.ascii_eqb d sep) eqn:E; [by constructor|].
  destruct (Py.split sep s) as [|w ws].
  - repeat constructor. simpl. by rewrite ascii_eqb_sym, E.
  - inversion IH; subst. constructor; [|done]. simpl.
    rewrite ascii_eqb_sym, E. done.
Qed.

Lemma lstrip_not_mem (p : ascii → bool) (c : ascii) (s : string) :
  Py.mem c s = false → Py.mem c (Py.lstrip_by p s) = false.
Proof.
  induction s as [|d s IH]; [done|]. simpl.
  intros [Hd Hs]%orb_false_elim. destruct (p d); [by apply IH|].
  simpl. by rewrite Hd, Hs.
Qed.

Lemma strip_not_mem (p : ascii → bool) (c : ascii) (s : string) :
  Py.mem c s = false → Py.mem c (Py.strip_by p s) = false.
Proof. intros H. by apply rstrip_not_mem, lstrip_not_mem. Qed.

Lemma lstrip_head (p : ascii → bool) (s : string) :
  head_not p (Py.lstrip_by p s).
Proof.
  induction s as [|d s IH]; [done|]. simpl. by destruct (p d) eqn:E.
Qed.

Lemma rstrip_head (p : ascii → bool) (s : string) :
  head_not p s → head_not p (Py.rstrip_by p s).
Proof.
  destruct s as [|d s]; [done|]. simpl. intros Hd. by rewrite Hd.
Qed.

Lemma lstrip_id (p : ascii → bool) (s : string) :
  head_not p s → Py.lstrip_by p s = s.
Proof. destruct s as [|d s]; [done|]. simpl. by intros ->. Qed.

(** Stripping what is stripped changes nothing. *)
Lemma strip_idem (p : ascii → bool) (s : string) :
  Py.strip_by p (Py.strip_by p s) = Py.strip_by p s.
Proof.
  unfold Py.strip_by.
  rewrite (lstrip_id p (Py.rstrip_by p _)) by apply rstrip_head, lstrip_head.
  apply rstrip_idem.
Qed.

(** X10. An identifier that [extract_top_files] returns holds no opening
    parenthesis and no line feed, and has no blank at either end. *)
Theorem extract_top_files_identifiers (llm_response x : string) :
  x ∈ extract_top_files llm_response →
  Py.mem "(" x = false ∧ Py.mem Py.LF x = false ∧ Py.strip x = x.
Proof.
  unfold extract_top_files.
  intros (line & -> & Hline)%list_elem_of_fmap.
  apply list_elem_of_filter in Hline as [_ Hline].
  pose proof (split_no_sep Py.LF llm_response) as Hlf.
  rewrite Forall_forall in Hlf. specialize (Hlf line Hline).
  unfold file_of_line.
  pose proof (split_no_sep "(" line) as Hp.
  pose proof (split_pieces "(" Py.LF line Hlf) as Hl.
  destruct (Py.split "(" line) as [|w ws]; [done|]. simpl.
  inversion Hp; inversion Hl; subst.
  repeat split.
  - by do 2 apply strip_not_mem.
  - by do 2 apply strip_not_mem.
  - apply strip_idem.
Qed.

Lemma extract_top_files_identifiers_witness :
  Py.mem "(" "foo.py" = false ∧ Py.mem Py.LF "foo.py" = false ∧
  Py.strip "foo.py" = "foo.py".
Proof.
  apply (extract_top_files_identifiers
           ("- foo.py (reason)" +:+ Py.NL +:+ "- bar.py (reason)" +:+ Py.NL)).
  vm_compute. by left.
Defined.

Lemma sends_lift {A : Type} (r : result A) : sends 0 (lift r).
Proof. intros log. exists []. by rewrite app_nil_r. Qed.

Lemma sends_ret {A : Type} (a : A) : sends 0 (mret a : M A).
Proof. intros log. exists []. by rewrite app_nil_r. Qed.

Lemma sends_get_llm_response (client : option service) (prompt : string) :
  sends 1 (get_llm_response client prompt default_model).
Proof.
  intros log. unfold get_llm_response. destruct client as [svc|]; simpl.
  - exists [rq prompt]. split; [done|]. split; [done|]. split; [done|].
    by repeat constructor.
  - exists []. rewrite app_nil_r. split; [done|]. split; [simpl; lia|].
    split; [done|]. constructor.
Qed.

Lemma sends_bind {A B : Type} (n k : nat) (m : M A) (f : A → M B) :
  sends n m → (∀ a, sends k (f a)) → sends (n + k) (m ≫= f).
Proof.
  intros Hm Hf log. unfold mbind, M_bind.
  destruct (Hm log) as (new1 & H1 & H2 & H3 & H4).
  destruct (m log) as [[a|e] log1]; simpl in *; subst log1.
  - destruct (Hf a (log ++ new1)) as (new2 & G1 & G2 & G3 & G4).
    exists (new1 ++ new2). rewrite G1, app_assoc, length_app.
    rewrite (H3 eq_refl) in *. split; [done|]. split; [lia|].
    split; [|by apply Forall_app]. intros Hok. by rewrite (G3 Hok).
  - exists new1. split; [done|]. split; [lia|]. split; [done|done].
Qed.

(** X11. A run of [process_task] sends at most four requests, all for the
    model gpt-3.5-turbo; it adds them after the requests sent before and
    leaves those as they were; and a run that returns has sent exactly
    four. *)
Theorem process_task_requests (an : analyzer) (client : option service)
    (token : option string) (task : gmap string string) (log : list request) :
  ∃ new,
    (process_task an client token task log).2 = log ++ new ∧
    (length new ≤ 4)%nat ∧
    (is_ok (process_task an client token task log).1 = true →
     length new = 4%nat) ∧
    Forall (λ q, req_model q = "gpt-3.5-turbo") new.
Proof.
  revert log. change (sends 4 (process_task an client token task)).
  unfold process_task.
  repeat (first
    [ apply (sends_bind 0 4); [apply sends_lift|intros ?]
    | apply (sends_bind 1 3); [apply sends_get_llm_response|intros ?]
    | apply (sends_bind 0 3); [apply sends_lift|intros ?]
    | apply (sends_bind 1 2); [apply sends_get_llm_response|intros ?]
    | apply (sends_bind 0 2); [apply sends_lift|intros ?]
    | apply (sends_bind 1 1); [apply sends_get_llm_response|intros ?]
    | apply (sends_bind 1 0); [apply sends_get_llm_response|intros ?]
    | apply sends_ret ]).
Qed.

End Parsing.

(** ** More on test injection *)

Section InjectionMore.
Import Fs.

Lemma startswith_app_l (n a b : string) :
  Py.startswith n a = true → Py.startswith n (a +:+ b) = true.
Proof.
  revert a. induction n as [|c n IH]; intros a; [done|].
  destruct a as [|d a]; [done|]. rewrite app_cons. simpl.
  intros [-> Hn]%andb_true_iff. by rewrite IH.
Qed.

Lemma contains_app_l (n a b : string) :
  Py.contains n a = true → Py.contains n (a +:+ b) = true.
Proof.
  induction a as [|c a IH].
  - destruct n; [by destruct b|done].
  - rewrite app_cons. simpl. intros [H|H]%orb_true_iff.
    + apply orb_true_iff. left. rewrite <- app_cons.
      by apply startswith_app_l.
    + rewrite IH by done. apply orb_true_r.
Qed.

(** X12. No call of [inject_tests] returns or writes. The current function
    raises NameError for the name [Path] whatever its arguments are. The
    snapshot raises ValueError for an empty text, ValueError for a task
    without the key test_file, and NameError for [Path] in every other case.
    The file system is left as it was. *)
Theorem inject_tests_never_writes (task : gmap string string) (T : string)
    (σ : fs) :
  Harness.inject_tests task T σ
    = (Raise (NameError "name 'Path' is not defined"), σ) ∧
  Harness_20250419213149.inject_tests task T σ
    = (Raise
         (if Py.is_empty T then
            ValueError "utboost_tests must be a non-empty string"
          else if bool_decide (task !! "test_file" = None) then
            ValueError "task_instance must contain 'test_file' key"
          else NameError "name 'Path' is not defined"), σ).
Proof.
  split; [done|]. unfold Harness_20250419213149.inject_tests.
  destruct (Py.is_empty T); [done|].
  destruct (task !! "test_file") as [p|] eqn:Hkey.
  - rewrite (bool_decide_eq_false_2 (task = ∅)); [done|].
    intros ->. by rewrite lookup_empty in Hkey.
  - by rewrite orb_true_r.
Qed.

End InjectionMore.

(** ** More on the repository tree *)

Section TreeMore.
Import CodebaseAnalyzer Outline.

Lemma render_item_grows (v : os_view) (rec : string → nat → result string)
    (dir_path : string) (indent : nat) (tree_str item out : string) :
  render_item v rec dir_path indent tree_str item = Ok out →
  ∃ rest, out = tree_str +:+ stem indent item +:+ rest.
Proof.
  unfold render_item, stem.
  destruct (isdir v (path_join dir_path item)).
  - destruct (rec _ _) as [sub|e]; [|done]. simpl. intros [= <-].
    exists ("/" +:+ Py.NL +:+ sub). by rewrite !app_assoc_s.
  - intros [= <-]. exists Py.NL. by rewrite !app_assoc_s.
Qed.

Lemma for_each_render_contains (v : os_view)
    (rec : string → nat → result string) (dir_path : string) (indent : nat)
    (items : list string) (acc out : string) :
  for_each (render_item v rec dir_path indent) items acc = Ok out →
  (∀ s, Py.contains s acc = true → Py.contains s out = true) ∧
  ∀ item, item ∈ items → Py.contains (stem indent item) out = true.
Proof.
  revert acc. induction items as [|x items IH]; intros acc; simpl.
  - intros [= <-]. split; [done|]. intros item Hi. by apply elem_of_nil in Hi.
  - destruct (render_item v rec dir_path indent acc x) as [acc'|e] eqn:E;
      [|done]. simpl. intros [H1 H2]%IH.
    destruct (render_item_grows _ _ _ _ _ _ _ E) as [rest ->].
    split.
    + intros s Hs. apply H1. by apply contains_app_l.
    + intros item [->|Hi]%elem_of_cons; [|by apply H2].
      apply H1, contains_app_r, contains_here.
Qed.

(** X15. When [build_tree] returns, its text has a line for every name of
    the listing of the directory: the text holds, for each name, the bars of
    the indentation, the connector and the name. *)
Theorem build_tree_shows_every_name (v : os_view) (depth : nat)
    (dir_path : string) (indent : nat) (items : list string) (text : string) :
  listdir v dir_path = Ok items →
  build_tree v depth dir_path indent = Ok text →
  ∀ item, item ∈ items →
    Py.contains (Py.repeat bar indent +:+ tee +:+ item) text = true.
Proof.
  intros Hls Hbt item Hi. destruct depth as [|depth]; [done|].
  simpl in Hbt. rewrite Hls in Hbt. simpl in Hbt.
  apply for_each_render_contains in Hbt as [_ H].
  apply H. by apply sorted_elem_of.
Qed.

Lemma build_tree_shows_every_name_witness :
  Py.contains (Py.repeat bar 0 +:+ tee +:+ "sub")
    ("├── a.py" +:+ Py.NL +:+ "├── b.py" +:+ Py.NL +:+ "├── sub/" +:+ Py.NL +:+
     "│   ├── c.py" +:+ Py.NL) = true.
Proof.
  apply (build_tree_shows_every_name Sample.pkg1 3 "/pkg" 0
           ["b.py"; "sub"; "a.py"]).
  - reflexivity.
  - reflexivity.
  - apply elem_of_cons. right. by left.
Defined.

Lemma render_item_flat (v : os_view) (rec : string → nat → result string)
    (dir_path : string) (indent : nat) (tree_str item : string) :
  isdir v (path_join dir_path item) = false →
  render_item v rec dir_path indent tree_str item =
    Ok (tree_str +:+ stem indent item +:+ Py.NL).
Proof.
  intros H. unfold render_item, stem. cbv zeta. rewrite H.
  by rewrite !app_assoc_s.
Qed.

Lemma for_each_render_flat (v : os_view)
    (rec : string → nat → result string) (dir_path : string) (indent : nat)
    (items : list string) (acc : string) :
  (∀ item, item ∈ items → isdir v (path_join dir_path item) = false) →
  for_each (render_item v rec dir_path indent) items acc =
    Ok (acc +:+ Py.concat ((λ item, stem indent item +:+ Py.NL) <$> items)).
Proof.
  revert acc. induction items as [|x items IH]; intros acc Hflat.
  - simpl. by rewrite app_empty_r.
  - cbn [for_each]. rewrite render_item_flat by (apply Hflat; by left).
    simpl. rewrite IH by (intros item Hi; apply Hflat; by right).
    by rewrite !app_assoc_s.
Qed.

(** X16. The tree of a directory that holds no directory is one line per
    name, made of the bars of the indentation, the connector and the name,
    and the lines come in ascending order of the names, whatever the order
    of the listing. *)
Theorem build_tree_flat (v : os_view) (depth : nat) (dir_path : string)
    (indent : nat) (items : list string) :
  listdir v dir_path = Ok items →
  (∀ item, item ∈ items → isdir v (path_join dir_path item) = false) →
  ∃ names,
    names ≡ₚ items ∧ Sorted String.le names ∧
    build_tree v (S depth) dir_path indent =
      Ok (Py.concat ((λ item, Py.repeat bar indent +:+ tee +:+ item +:+ Py.NL)
                       <$> names)).
Proof.
  intros Hls Hflat. exists (sorted items). split; [|split].
  - apply merge_sort_Permutation.
  - apply Sorted_merge_sort, _.
  - simpl. rewrite Hls. simpl. rewrite for_each_render_flat.
    + rewrite app_empty_l. do 2 f_equal. apply list_fmap_ext.
      intros _ item _. unfold stem. by rewrite !app_assoc_s.
    + intros item Hi. apply Hflat. by apply sorted_elem_of.
Qed.

Lemma build_tree_flat_witness :
  ∃ names,
    names ≡ₚ ["c.py"] ∧ Sorted String.le names ∧
    build_tree Sample.pkg1 1 "/pkg/sub" 1 =
      Ok (Py.concat ((λ item, Py.repeat bar 1 +:+ tee +:+ item +:+ Py.NL)
                       <$> names)).
Proof.
  apply (build_tree_flat Sample.pkg1 0 "/pkg/sub" 1 ["c.py"]).
  - reflexivity.
  - intros item ->%list_elem_of_singleton. reflexivity.
Defined.

End TreeMore.

(** ** Reading an issue from the evaluation directory *)

Section ReadIssue.
Import TestGenerator Records.

Variable json_loads : string → result json.

Lemma find_instance_skips (before rest : list string) (instance_id : string) :
  Forall (other_record json_loads instance_id) before →
  find_instance json_loads (before ++ rest) instance_id =
  find_instance json_loads rest instance_id.
Proof.
  induction 1 as [|l before (d & Hl & Hd) _ IH]; [done|].
  simpl. by rewrite Hl, Hd.
Qed.

(** X17. The first record of the instance decides the answer: when the
    lines before it are records of other instances, the call returns the
    issue description and the patch of that record (the empty string for a
    field it lacks), whatever the lines after it are. *)
Theorem read_issue_first_match (σ : Fs.fs)
    (eval_dir agent_name instance_id text line : string)
    (before after : list string) (d : list (string * json)) :
  Fs.read σ (preds_file eval_dir agent_name) = Ok text →
  Py.readlines text = before ++ line :: after →
  Forall (other_record json_loads instance_id) before →
  json_loads line = Ok (JDict d) →
  id_matches d instance_id = true →
  read_issue_from_eval_dir json_loads σ eval_dir agent_name instance_id =
    Returns (default (JStr "") (dict_get d "issue_description"),
             default (JStr "") (dict_get d "model_patch")).
Proof.
  intros Hread Hlines Hbefore Hline Hd.
  unfold read_issue_from_eval_dir. fold (preds_file eval_dir agent_name).
  assert (Fs.exists_ σ (preds_file eval_dir agent_name) = true) as ->.
  { unfold Fs.read, Fs.exists_ in *.
    by destruct (σ !! preds_file eval_dir agent_name). }
  simpl. rewrite Hread, Hlines, find_instance_skips by done.
  simpl. by rewrite Hline, Hd.
Qed.

(** X18. The two errors of its own: the call raises FileNotFoundError when
    the predictions file does not exist, and ValueError when every line of
    the file is a record of another instance; both messages name the file. *)
Theorem read_issue_not_found (σ : Fs.fs)
    (eval_dir agent_name instance_id : string) :
  let json_file := preds_file eval_dir agent_name in
  (Fs.exists_ σ json_file = false →
   read_issue_from_eval_dir json_loads σ eval_dir agent_name instance_id =
     Raises (Std (FileNotFoundError ("Could not find " +:+ json_file))))
  ∧
  (∀ text,
     Fs.read σ json_file = Ok text →
     Forall (other_record json_loads instance_id) (Py.readlines text) →
     read_issue_from_eval_dir json_loads σ eval_dir agent_name instance_id =
       Raises (Std (ValueError ("Could not find instance " +:+ instance_id
                                 +:+ " in " +:+ json_file)))).
Proof.
  intros json_file. unfold read_issue_from_eval_dir.
  fold (preds_file eval_dir agent_name). fold json_file. split.
  - by intros ->.
  - intros text Hread Hall.
    assert (Fs.exists_ σ json_file = true) as ->.
    { unfold Fs.read, Fs.exists_ in *. by destruct (σ !! json_file). }
    simpl. rewrite Hread. rewrite <- (app_nil_r (Py.readlines text)).
    by rewrite find_instance_skips.
Qed.

(** X19. A line that is not JSON, or is JSON but not an object, ends the
    search when it comes before any record of the instance: the call raises
    the error of the parser, or the AttributeError of the failed [.get], even
    when a record of the instance comes later. *)
Theorem read_issue_bad_line (σ : Fs.fs)
    (eval_dir agent_name instance_id text line : string)
    (before after : list string) :
  Fs.read σ (preds_file eval_dir agent_name) = Ok text →
  Py.readlines text = before ++ line :: after →
  Forall (other_record json_loads instance_id) before →
  (∀ e, json_loads line = Raise e →
        read_issue_from_eval_dir json_loads σ eval_dir agent_name instance_id
          = Raises (Std e))
  ∧
  (∀ v, json_loads line = Ok v → (∀ d, v ≠ JDict d) →
        read_issue_from_eval_dir json_loads σ eval_dir agent_name instance_id
          = Raises (AttributeError (type_name v))).
Proof.
  intros Hread Hlines Hbefore.
  unfold read_issue_from_eval_dir. fold (preds_file eval_dir agent_name).
  assert (Fs.exists_ σ (preds_file eval_dir agent_name) = true) as ->.
  { unfold Fs.read, Fs.exists_ in *.
    by destruct (σ !! preds_file eval_dir agent_name). }
  simpl. rewrite Hread, Hlines, find_instance_skips by done. simpl. split.
  - by intros e ->.
  - intros v -> Hv. destruct v; try done. by destruct (Hv items).
Qed.

End ReadIssue.

Section ReadIssueExamples.
Import TestGenerator Records.

Lemma read_issue_first_match_witness :
  read_issue_from_eval_dir Sample.loads Sample.eval_fs "eval" "agent" "i2" =
    Returns (JStr "d2", JStr "p2").
Proof.
  apply (read_issue_first_match Sample.loads Sample.eval_fs "eval" "agent" "i2"
           ("r1" +:+ Py.NL +:+ "r2" +:+ Py.NL +:+ "broken" +:+ Py.NL)
           ("r2" +:+ Py.NL) ["r1" +:+ Py.NL] ["broken" +:+ Py.NL]
           [("instance_id", JStr "i2"); ("issue_description", JStr "d2");
            ("model_patch", JStr "p2")]).
  - reflexivity.
  - reflexivity.
  - constructor; [|constructor]. eexists. split; reflexivity.
  - reflexivity.
  - reflexivity.
Defined.

Lemma read_issue_not_found_witness :
  read_issue_from_eval_dir Sample.loads Sample.eval_fs "eval" "other" "i2" =
    Raises (Std (FileNotFoundError
                   "Could not find eval/other/all_preds.json")).
Proof.
  apply (proj1 (read_issue_not_found Sample.loads Sample.eval_fs "eval"
                  "other" "i2")).
  reflexivity.
Defined.

Lemma read_issue_bad_line_witness :
  read_issue_from_eval_dir Sample.loads Sample.eval_fs "eval" "agent" "i3" =
    Raises (Std (ValueError "Expecting value")).
Proof.
  apply (proj1 (read_issue_bad_line Sample.loads Sample.eval_fs "eval" "agent"
                  "i3"
                  ("r1" +:+ Py.NL +:+ "r2" +:+ Py.NL +:+ "broken" +:+ Py.NL)
                  ("broken" +:+ Py.NL) ["r1" +:+ Py.NL; "r2" +:+ Py.NL] []
                  eq_refl eq_refl
                  ltac:(repeat constructor; eexists; split; reflexivity))).
  reflexivity.
Defined.

End ReadIssueExamples.

(** ** What a run of the pipeline returns *)

Section Provenance.
Import ContextGenerator.

(** X20. When a run of [process_task] returns, it has sent four requests,
    and the four analyses of its result are the answers of the service to
    these requests, in their order; the fourth request is the test-case
    prompt built from the three answers before it, and the target functions
    of the third are parsed from the second answer alone. *)
Theorem process_task_result (an : analyzer) (svc : service)
    (token : option string) (task : gmap string string)
    (log log' : list request) (res : task_result) :
  process_task an (Some svc) token task log = (Ok res, log') →
  ∃ p1 p2 p3,
    let p4 := test_case_prompt an (repository_info res) task
                (file_level_analysis res) (function_class_analysis res)
                (line_level_analysis res) in
    log' = log ++ [rq p1; rq p2; rq p3; rq p4] ∧
    svc log (rq p1) = Ok (file_level_analysis res) ∧
    svc (log ++ [rq p1]) (rq p2) = Ok (function_class_analysis res) ∧
    svc (log ++ [rq p1; rq p2]) (rq p3) = Ok (line_level_analysis res) ∧
    svc (log ++ [rq p1; rq p2; rq p3]) (rq p4) = Ok (test_case res) ∧
    derive_repo_info an task = Ok (repository_info res) ∧
    ∃ owner name,
      line_level_localization an owner name
        (target_functions (function_class_analysis res))
        (get task "issue_description") (get task "model_patch") token
      = Ok p3.
Proof.
  unfold process_task, mbind, M_bind, lift, get_llm_response, mret, M_ret.
  destruct (derive_repo_info an task) as [info|]; [|done].
  destruct (getitem info "repo_owner") as [owner|]; [|done].
  destruct (getitem info "repo_name") as [name|]; [|done].
  destruct (file_level_localization _ _ _ _ _ _) as [p1|]; [|done].
  destruct (svc log (rq p1)) as [a1|] eqn:E1; [|done].
  destruct (function_class_localization _ _ _ _ _ _ _) as [p2|]; [|done].
  destruct (svc (log ++ [rq p1]) (rq p2)) as [a2|] eqn:E2; [|done].
  destruct (line_level_localization _ _ _ _ _ _ _) as [p3|] eqn:L3; [|done].
  destruct (svc ((log ++ [rq p1]) ++ [rq p2]) (rq p3)) as [a3|] eqn:E3;
    [|done].
  destruct (svc (((log ++ [rq p1]) ++ [rq p2]) ++ [rq p3]) _) as [a4|] eqn:E4;
    [|done].
  intros [= <- <-]. exists p1, p2, p3. simpl.
  rewrite <- !app_assoc in *. simpl in *.
  repeat split; try done. by exists owner, name.
Qed.

Lemma process_task_result_witness :
  ∃ p1 p2 p3,
    [rq "FILE"; rq "FUNCTION"; rq "LINE";
     rq (test_case_prompt Sample.analyzer Sample.repo Sample.job
           "- a.py (why)" "" "f: 1-2")]
    = [] ++ [rq p1; rq p2; rq p3;
             rq (test_case_prompt Sample.analyzer Sample.repo Sample.job
                   "- a.py (why)" "" "f: 1-2")].
Proof.
  destruct (process_task_result Sample.analyzer Sample.service None
              Sample.job [] _
              (TaskResult Sample.repo "- a.py (why)" "" "f: 1-2"
                 "def test_f(): pass") eq_refl)
    as (p1 & p2 & p3 & H & _).
  exists p1, p2, p3. exact H.
Defined.

End Provenance.

(** ** No request after a failure *)

Section FailFast.
Import ContextGenerator Requests.

Variable svc : service.

Lemma fail_fast_lift {A : Type} (r : result A) : fail_fast svc (lift r).
Proof.
  intros log. exists []. rewrite app_nil_r. split; [done|].
  intros pre q post e H. by destruct pre.
Qed.

Lemma fail_fast_ret {A : Type} (a : A) : fail_fast svc (mret a : M A).
Proof.
  intros log. exists []. rewrite app_nil_r. split; [done|].
  intros pre q post e H. by destruct pre.
Qed.

Lemma fail_fast_get_llm_response (client : option service)
    (prompt model : string) :
  client = Some svc ∨ client = None →
  fail_fast svc (get_llm_response client prompt model).
Proof.
  intros [->| ->] log; unfold get_llm_response; simpl.
  - exists [Request model prompt]. split; [done|].
    intros pre q post e H Hq. destruct pre as [|? pre].
    + injection H as <- <-. rewrite app_nil_r in Hq. by rewrite Hq.
    + injection H as _ H. by destruct pre.
  - exists []. rewrite app_nil_r. split; [done|].
    intros pre q post e H. by destruct pre.
Qed.

Lemma fail_fast_bind {A B : Type} (m : M A) (f : A → M B) :
  fail_fast svc m → (∀ a, fail_fast svc (f a)) → fail_fast svc (m ≫= f).
Proof.
  intros Hm Hf log. unfold mbind, M_bind.
  destruct (Hm log) as (new1 & H1 & H2).
  destruct (m log) as [[a|e0] log1]; simpl in *; subst log1.
  - destruct (Hf a (log ++ new1)) as (new2 & G1 & G2).
    exists (new1 ++ new2). rewrite G1, app_assoc. split; [done|].
    intros pre q post e Hsplit Hq.
    apply app_eq_app in Hsplit as [l [[Hn Hl]|[Hp Hl]]].
    + destruct l as [|x l].
      * rewrite app_nil_r in Hn. subst pre. simpl in Hl.
        apply (G2 [] q post e); [done|by rewrite app_nil_r].
      * injection Hl as Hx Hpost. subst x.
        by destruct (H2 pre q l e Hn Hq) as [_ ?].
    + subst pre. apply (G2 l q post e); [done|by rewrite <- app_assoc].
  - exists new1. split; [done|]. intros pre q post e Hsplit Hq.
    destruct (H2 pre q post e Hsplit Hq) as [Hpost He]. split; [done|].
    injection He as ->. done.
Qed.

(** X21. [process_task] never goes on after a failure of the service and
    never asks again: a request that the service fails is the last request
    of the run, and the run raises the error of the service. *)
Theorem process_task_fail_fast (an : analyzer) (token : option string)
    (task : gmap string string) (log : list request) :
  ∃ new,
    (process_task an (Some svc) token task log).2 = log ++ new ∧
    ∀ pre q post e,
      new = pre ++ q :: post → svc (log ++ pre) q = Raise e →
      post = [] ∧ (process_task an (Some svc) token task log).1 = Raise e.
Proof.
  revert log. change (fail_fast svc (process_task an (Some svc) token task)).
  unfold process_task.
  repeat (first
    [ apply fail_fast_bind;
        [first [apply fail_fast_lift
               |apply fail_fast_get_llm_response; by left]
        |intros ?]
    | apply fail_fast_ret ]).
Qed.

End FailFast.

Section FailFastExample.
Import ContextGenerator.

Lemma process_task_fail_fast_witness :
  (process_task Sample.analyzer (Some Sample.flaky) None Sample.job []).1
  = Raise (ServiceError "overloaded").
Proof.
  destruct (process_task_fail_fast Sample.flaky Sample.analyzer None
              Sample.job []) as (new & Hnew & H).
  vm_compute in Hnew. subst new.
  apply (H [rq "FILE"] (rq "FUNCTION") [] (ServiceError "overloaded")
           eq_refl eq_refl).
Defined.

End FailFastExample.

(** ** Bullet lines *)

Section BulletLines.
Import ContextGenerator Outline.

Lemma split_id (sep : ascii) (s : string) :
  Py.mem sep s = false → Py.split sep s = [s].
Proof.
  induction s as [|c s IH]; [done|]. simpl.
  intros [Hc Hs]%orb_false_elim. rewrite ascii_eqb_sym, Hc. by rewrite IH.
Qed.

Lemma strip_fixed (p : ascii → bool) (s : string) :
  Py.strip_by p s = s → head_not p s ∧ Py.rstrip_by p s = s.
Proof.
  intros H. assert (head_not p s) as Hh.
  { rewrite <- H. apply rstrip_head, lstrip_head. }
  split; [done|]. unfold Py.strip_by in H. by rewrite lstrip_id in H.
Qed.

(** Stripping the dashes and spaces around a clean identifier that follows
    the bullet marker and is followed by dashes and spaces. *)
Lemma strip_chars_marker (name t : string) :
  clean_identifier name →
  all_chars (λ c, Py.mem c "- ") t = true →
  Py.strip_chars "- " ("- " +:+ name +:+ t) = name.
Proof.
  intros (Hne & _ & _ & Hfix & _) Ht.
  apply strip_fixed in Hfix as [Hhead Hr].
  unfold Py.strip_chars, Py.strip_by.
  change (Py.lstrip_by (λ c, Py.mem c "- ") ("- " +:+ name +:+ t))
    with (Py.lstrip_by (λ c, Py.mem c "- ") (name +:+ t)).
  rewrite lstrip_id.
  - by rewrite rstrip_app_spaces.
  - destruct name; [done|]. by rewrite app_cons.
Qed.

Lemma extract_one_line (line : string) :
  one_line line →
  extract_top_files line =
    if Py.startswith "- " line then [file_of_line line] else [].
Proof.
  intros Hl. unfold extract_top_files. rewrite split_one_line by done.
  destruct (Py.startswith "- " line) eqn:E.
  - by rewrite filter_cons_True.
  - rewrite filter_cons_False; [done|]. congruence.
Qed.

(** C4 (as amended). The parse of a response is the parse of its lines, one
    after the other, so duplicates stay. A line that does not begin with the
    marker "- " gives nothing; a line that does gives exactly one
    identifier. For a clean identifier, the line made of the marker and the
    identifier, with or without a rationale in parentheses after a space,
    gives that identifier: marker and rationale are stripped. The response
    of the scenario parses to foo.py then bar.py. *)
Theorem extract_top_files_in_line_order :
  (∀ r1 r2, extract_top_files (r1 +:+ Py.NL +:+ r2) =
              extract_top_files r1 ++ extract_top_files r2)
  ∧ (∀ line, one_line line →
       (Py.startswith "- " line = false → extract_top_files line = []) ∧
       (Py.startswith "- " line = true →
        ∃ x, extract_top_files line = [x]))
  ∧ (∀ name rationale, clean_identifier name → one_line rationale →
       extract_top_files ("- " +:+ name) = [name] ∧
       extract_top_files ("- " +:+ name +:+ " (" +:+ rationale) = [name])
  ∧ extract_top_files ("- foo.py (reason)" +:+ Py.NL +:+
                       "- bar.py (reason)" +:+ Py.NL) = ["foo.py"; "bar.py"].
Proof.
  split; [|split; [|split; [|reflexivity]]].
  - intros r1 r2. unfold extract_top_files, Py.NL.
    rewrite app_cons, app_empty_l, split_app, filter_app. apply fmap_app.
  - intros line Hl. rewrite (extract_one_line line Hl).
    split; intros ->; [done|by eexists].
  - intros name rationale Hclean Hr.
    pose proof Hclean as (Hne & Hparen & Hone & _ & Hstrip).
    unfold one_line in *.
    assert (Py.mem "(" ("- " +:+ name) = false) as Hm1.
    { by rewrite (mem_app "(" "- " name), Hparen. }
    assert (Py.mem "(" (("- " +:+ name) +:+ " ") = false) as Hm2.
    { by rewrite (mem_app "(" ("- " +:+ name) " "), Hm1. }
    assert (Py.mem Py.LF ("- " +:+ name) = false) as Hl1.
    { by rewrite (mem_app Py.LF "- " name), Hone. }
    assert (Py.mem Py.LF (("- " +:+ name) +:+ (" (" +:+ rationale)) = false)
      as Hl2.
    { rewrite (mem_app Py.LF ("- " +:+ name) (" (" +:+ rationale)), Hl1.
      by rewrite (mem_app Py.LF " (" rationale), Hr. }
    split.
    + rewrite extract_one_line by exact Hl1.
      rewrite startswith_app. f_equal. unfold file_of_line.
      rewrite split_id by exact Hm1. simpl.
      rewrite <- (app_empty_r name) at 1.
      by rewrite (strip_chars_marker name "" Hclean).
    + rewrite <- (app_assoc_s "- " name (" (" +:+ rationale)).
      rewrite extract_one_line by exact Hl2.
      rewrite (app_assoc_s "- " name (" (" +:+ rationale)).
      rewrite startswith_app. f_equal. unfold file_of_line.
      change ("- " +:+ name +:+ " (" +:+ rationale)
        with ("- " +:+ name +:+ " " +:+ String "(" rationale).
      rewrite <- (app_assoc_s name " " (String "(" rationale)).
      rewrite <- (app_assoc_s "- " (name +:+ " ") (String "(" rationale)).
      rewrite split_app.
      rewrite <- (app_assoc_s "- " name " ").
      rewrite split_id by exact Hm2. simpl.
      rewrite (app_assoc_s "- " name " ").
      by rewrite (strip_chars_marker name " " Hclean).
Qed.

Lemma extract_top_files_in_line_order_witness :
  extract_top_files ("- " +:+ "foo.py" +:+ " (" +:+ "reason)") = ["foo.py"].
Proof.
  apply (proj1 (proj2 (proj2 extract_top_files_in_line_order))
           "foo.py" "reason)").
  - repeat split; (discriminate || reflexivity).
  - reflexivity.
Defined.

(** C4 as stated fails: a file named by two bullet lines is returned
    twice. *)
Lemma extract_top_files_keeps_duplicates :
  extract_top_files ("- a.py (first)" +:+ Py.NL +:+ "- a.py (again)" +:+ Py.NL)
    = ["a.py"; "a.py"] ∧
  ¬ NoDup (extract_top_files
             ("- a.py (first)" +:+ Py.NL +:+ "- a.py (again)" +:+ Py.NL)).
Proof.
  split; [reflexivity|].
  intros H. vm_compute in H. apply NoDup_cons_1_1 in H. apply H. by left.
Qed.

End BulletLines.
